(** * Daily: retrieval and point resolution of daily weather observations

    A shallow embedding of [meteostat/interface/daily.py] (class [Daily]):
    the per-station loader [_load], the multi-station acquisition
    [_get_data] and the point resolver [_resolve_point], together with the
    parts of pandas they are written against (tables keyed by station and
    time, left joins on the station key, masked column assignment, grouping
    by daily time buckets, and the [first] aggregation). *)

From Stdlib Require Import ZArith QArith Lia.
From Stdlib Require Floats.PrimFloat.
From stdpp Require Import base option list strings gmap.

Local Open Scope string_scope.
Local Open Scope Z_scope.

(** ** Numbers

    The cells of a table are [float64] values.  A cell is either missing
    (NaN) or a number; the numbers and their arithmetic are kept abstract,
    so that every statement below holds for whatever the operators compute
    on numbers (binary64 included, as long as the operations stay within
    the finite numbers, where they return no NaN).  [fround1] is the
    rounding to one decimal place of [DataFrame.round(1)]. *)

Class Float (F : Type) := {
  fadd : F -> F -> F;
  fsub : F -> F -> F;
  fmul : F -> F -> F;
  fdiv : F -> F -> F;
  feqb : F -> F -> bool;
  fltb : F -> F -> bool;
  fround1 : F -> F;
  of_int : Z -> F
}.

Section Values.
Context {F : Type} `{Flt : Float F}.

(** A cell: [None] is NaN. *)
Definition value : Type := option F.

Definition NaN : value := None.

(** NaN is contagious in arithmetic. *)
Definition lift2 (op : F -> F -> F) (a b : value) : value :=
  match a, b with
  | Some x, Some y => Some (op x y)
  | _, _ => None
  end.

Definition vadd : value -> value -> value := lift2 fadd.
Definition vsub : value -> value -> value := lift2 fsub.
Definition vmul : value -> value -> value := lift2 fmul.
Definition vdiv : value -> value -> value := lift2 fdiv.

(** [a == b] on floats: false as soon as one side is NaN. *)
Definition veq (a b : value) : bool :=
  match a, b with
  | Some x, Some y => feqb x y
  | _, _ => false
  end.

(** [a != b] is the negation of [==], hence true against NaN. *)
Definition vne (a b : value) : bool := negb (veq a b).

(** [round(1)] keeps NaN. *)
Definition vround (a : value) : value :=
  match a with
  | Some x => Some (fround1 x)
  | None => None
  end.

Definition notna (a : value) : bool :=
  match a with Some _ => true | None => false end.
End Values.

Arguments value F : clear implicits.

(** ** Schema (class attributes of [Daily]) *)

Definition cache_subdir : string := "daily".

(** [_freq = '1D']: the width of a time bucket, in seconds. *)
Definition _freq : Z := 86400.

Definition _columns : list string :=
  ["date"; "tavg"; "tmin"; "tmax"; "prcp"; "snow"; "wdir"; "wspd"; "wpgt";
   "pres"; "tsun"].

Definition _first_met_col : nat := 1.

(** [_types]: a dict, kept in its insertion order. *)
Definition _types : list (string * string) :=
  [("tavg", "float64"); ("tmin", "float64"); ("tmax", "float64");
   ("prcp", "float64"); ("snow", "float64"); ("wdir", "float64");
   ("wspd", "float64"); ("wpgt", "float64"); ("pres", "float64");
   ("tsun", "float64")].

(** The ten meteorological columns. *)
Inductive column : Set :=
  | tavg | tmin | tmax | prcp | snow | wdir | wspd | wpgt | pres | tsun.

Definition column_name (c : column) : string :=
  match c with
  | tavg => "tavg" | tmin => "tmin" | tmax => "tmax" | prcp => "prcp"
  | snow => "snow" | wdir => "wdir" | wspd => "wspd" | wpgt => "wpgt"
  | pres => "pres" | tsun => "tsun"
  end.

#[global] Instance column_eq_dec : EqDecision column.
Proof. solve_decision. Defined.

(** ** Tables *)

Section Tables.
Context {F : Type} `{Flt : Float F}.

(** The cells of one table row, one per meteorological column. *)
Record cells : Type := Cells {
  c_tavg : value F; c_tmin : value F; c_tmax : value F; c_prcp : value F;
  c_snow : value F; c_wdir : value F; c_wspd : value F; c_wpgt : value F;
  c_pres : value F; c_tsun : value F
}.

(** [row[c]] *)
Definition get (c : column) (r : cells) : value F :=
  match c with
  | tavg => c_tavg r | tmin => c_tmin r | tmax => c_tmax r
  | prcp => c_prcp r | snow => c_snow r | wdir => c_wdir r
  | wspd => c_wspd r | wpgt => c_wpgt r | pres => c_pres r
  | tsun => c_tsun r
  end.

Definition build (f : column -> value F) : cells :=
  Cells (f tavg) (f tmin) (f tmax) (f prcp) (f snow) (f wdir) (f wspd)
        (f wpgt) (f pres) (f tsun).

(** [row[c] = v] *)
Definition set (c : column) (v : value F) (r : cells) : cells :=
  build (fun c' => if decide (c' = c) then v else get c' r).

(** A row of a table keyed by (station, time); [time] is a timestamp in
    seconds. *)
Record row : Type := Row { station : string; time : Z; data : cells }.

(** A [pd.DataFrame] of observations: its columns with their dtypes, and
    its rows in table order. *)
Record DataFrame : Type := Frame {
  columns : list (string * string);
  rows : list row
}.

(** [df.size]: number of rows times number of columns. *)
Definition size (df : DataFrame) : nat :=
  (length (rows df) * length (columns df))%nat.

(** [pd.DataFrame(columns=names)]: no rows; no dtype is given, so every
    column gets pandas' default dtype [object]. *)
Definition DataFrame_of_columns (names : list string) : DataFrame :=
  {| columns := map (fun n => (n, "object")) names; rows := [] |}.

(** [df.round(1)] on the cells of a row. *)
Definition round_cells (r : cells) : cells :=
  build (fun c => vround (get c r)).

(** A row of the stations table: the metadata of one station. *)
Record meta : Type := Meta { score : value F; elevation : value F }.
End Tables.

Arguments cells F : clear implicits.
Arguments row F : clear implicits.
Arguments DataFrame F : clear implicits.
Arguments meta F : clear implicits.

(** ** Grouping by time bucket

    [df.groupby(pd.Grouper(level='time', freq=_freq))]: a time grouper
    sorts the table by time (a stable sort, so rows of equal time keep
    their table order) and cuts it into the consecutive buckets of width
    [_freq] that span the first to the last row; a bucket without rows is
    still a group. *)

(** The label of the bucket of timestamp [t]: the start of its day. *)
Definition bucket (t : Z) : Z := _freq * (t / _freq).

Section Grouper.
Context {A : Type} (time_of : A -> Z).

Fixpoint insert_by_time (x : A) (l : list A) : list A :=
  match l with
  | [] => [x]
  | y :: l' =>
      if time_of x <=? time_of y then x :: y :: l'
      else y :: insert_by_time x l'
  end.

Definition sort_by_time (l : list A) : list A := foldr insert_by_time [] l.

(** The bucket labels from the earliest to the latest row. *)
Definition bins (l : list A) : list Z :=
  match map (fun x => bucket (time_of x)) l with
  | [] => []
  | b :: bs =>
      let lo := foldr Z.min b bs in
      let hi := foldr Z.max b bs in
      map (fun i => lo + _freq * Z.of_nat i)
          (seq 0 (S (Z.to_nat ((hi - lo) / _freq))))
  end.

(** The rows of bucket [b], in grouping order. *)
Definition group (l : list A) (b : Z) : list A :=
  filter (fun x => bucket (time_of x) = b) (sort_by_time l).

Definition groupby (l : list A) : list (Z * list A) :=
  map (fun b => (b, group l b)) (bins l).
End Grouper.

(** Python exceptions, by class name. *)
Inductive exn : Set := Exn (name : string).

Definition MetadataMissing : exn := Exn "MetadataMissing".

Section Resolver.
Context {F : Type} `{Flt : Float F}.

(** [first] of a grouped column: pandas returns the first entry of the
    group that is not null, and null when there is none. *)
Fixpoint first (vs : list (value F)) : value F :=
  match vs with
  | [] => NaN
  | Some x :: _ => Some x
  | None :: vs' => first vs'
  end.

(** [group[c]]: the column [c] of a group of rows. *)
Definition col (c : column) (g : list (row F)) : list (value F) :=
  map (fun r => get c (data r)) g.

(** [.agg('first')] on one group of a table: column by column. *)
Definition agg_first (g : list (row F)) : cells F :=
  build (fun c => first (col c g)).

(** The attributes of a [Daily] object: its own ([_stations], [_start],
    [_end], [_model], [_data]) and the configuration it inherits from its
    base class.  Timestamps are in seconds; [None] is Python's [None]. *)
Record Daily : Type := {
  _stations : list string;
  _start : option Z;
  _end : option Z;
  _model : bool;
  _data : DataFrame F;
  endpoint : string;
  cache_dir : string;
  max_age : Z;
  autoclean : bool;
  processes : Z;
  threads : Z
}.

(** [self._data = df; self._stations = ids] *)
Definition with_data (self : Daily) (df : DataFrame F) (ids : list string)
  : Daily :=
  {| _stations := ids; _start := _start self; _end := _end self;
     _model := _model self; _data := df; endpoint := endpoint self;
     cache_dir := cache_dir self; max_age := max_age self;
     autoclean := autoclean self; processes := processes self;
     threads := threads self |}.

(** A table joined with helper columns [H] of the stations table. *)
Definition joined (H : Type) : Type := list (row F * H).

(** [df.join(stations[cols], on='station')]: a left join; a station that
    the stations table does not list gets NaN in the joined columns. *)
Definition join {H : Type} (pick : meta F -> H) (missing : H)
    (stations : gmap string (meta F)) (df : list (row F)) : joined H :=
  map (fun r => (r, match stations !! station r with
                    | Some m => pick m
                    | None => missing
                    end)) df.

(** [df.drop(helper columns, axis=1)] *)
Definition drop {H : Type} (tbl : joined H) : list (row F) := map fst tbl.

Definition set_cell (c : column) (v : value F) (r : row F) : row F :=
  {| station := station r; time := time r; data := set c v (data r) |}.

Definition round_row (r : row F) : row F :=
  {| station := station r; time := time r; data := round_cells (data r) |}.

Section adjust_temp.
Context {H : Type} (elev : H -> value F) (alt : Z).

(** [(2 / 3) * ((data['elevation'] - alt) / 100)] on one row. *)
Definition lapse (x : row F * H) : value F :=
  vmul (Some (fdiv (of_int 2) (of_int 3)))
       (vdiv (vsub (elev x.2) (Some (of_int alt))) (Some (of_int 100))).

(** [data.loc[data[c] != np.NaN, c] = data[c] + lapse] (lines 178 to 183):
    the rows that the mask selects get the new value, the others keep
    theirs. *)
Definition adjust_column (c : column) (tbl : joined H) : joined H :=
  map (fun x =>
         if vne (get c (data x.1)) NaN
         then (set_cell c (vadd (get c (data x.1)) (lapse x)) x.1, x.2)
         else x) tbl.

Definition adjust_temp (tbl : joined H) : joined H :=
  adjust_column tmax (adjust_column tmin (adjust_column tavg tbl)).
End adjust_temp.

(** [weighted_average] of [meteostat.utilities.aggregations] is not part of
    the sources at hand: the resolver is stated for any function from a
    group of joined rows to one row of the same columns. *)
Context (weighted_average : joined (meta F) -> cells F * meta F).

Definition time_of {H : Type} (x : row F * H) : Z := time x.1.

(** The nearest branch of [_resolve_point] (lines 187 to 206), up to the
    grouping: the table [data] that is grouped. *)
Definition nearest_data (self : Daily) (stations : gmap string (meta F))
    (alt : Z) (adapt_temp : bool) : list (row F) :=
  if adapt_temp then
    let data := join elevation NaN stations (rows (_data self)) in
    let data := adjust_temp id alt data in
    map round_row (drop data)
  else rows (_data self).

(** The table indexed by time bucket that [groupby(...).agg('first')]
    returns. *)
Definition resolve_nearest (self : Daily) (stations : gmap string (meta F))
    (alt : Z) (adapt_temp : bool) : list (Z * cells F) :=
  let data := nearest_data self stations alt adapt_temp in
  map (fun bg => (bg.1, agg_first bg.2)) (groupby time data).

(** The other branch (lines 208 to 234), up to the grouping: the joined
    table [data]. *)
Definition weighted_data (self : Daily) (stations : gmap string (meta F))
    (alt : Z) (adapt_temp : bool) : joined (meta F) :=
  let data :=
    join id (Meta NaN NaN) stations (rows (_data self)) in
  if adapt_temp then adjust_temp elevation alt data else data.

(** The other branch: [excluded] is the wind direction resolved by
    [agg('first')], a series keyed by bucket label; [data] is the table of
    the weighted averages, one row per bucket (after [droplevel(1)] its
    index is the bucket label); [data['wdir'] = excluded] aligns the two
    on the label; then the helper columns go and the cells are rounded. *)
Definition resolve_weighted (self : Daily) (stations : gmap string (meta F))
    (alt : Z) (adapt_temp : bool) : list (Z * cells F) :=
  let data := weighted_data self stations alt adapt_temp in
  let excluded : gmap Z (value F) :=
    list_to_map
      (map (fun bg => (bg.1, first (col wdir (drop bg.2))))
           (groupby time_of data)) in
  let data :=
    map (fun bg => (bg.1, weighted_average bg.2)) (groupby time_of data) in
  let data :=
    map (fun bx => (bx.1, (set wdir (default NaN (excluded !! bx.1)) bx.2.1,
                           bx.2.2))) data in
  map (fun bx => (bx.1, round_cells bx.2.1)) data.

(** [_resolve_point] (lines 159 to 240): the object after the call (the
    method returns [None] on every path and raises nothing of its own).
    The resolved rows get the station id [XXXXX] and are keyed by it and
    their bucket label. *)
Definition _resolve_point (self : Daily) (method : string)
    (stations : gmap string (meta F)) (alt : Z) (adapt_temp : bool)
  : exn + Daily :=
  if bool_decide (length (_stations self) = 0%nat)
     || bool_decide (size (_data self) = 0%nat)
  then inr self
  else
    let resolved :=
      if String.eqb method "nearest"
      then resolve_nearest self stations alt adapt_temp
      else resolve_weighted self stations alt adapt_temp in
    inr (with_data self
           {| columns := columns (_data self);
              rows := map (fun bc => Row "XXXXX" bc.1 bc.2) resolved |}
           ["XXXXX"]).
End Resolver.

Arguments Daily F : clear implicits.

(** ** Loading

    What [_load] does to the outside world is recorded as a trace of
    events, in program order; an exception raised by a collaborator ends
    the computation and is its result. *)

Section Effects.
Context {F : Type}.

Inductive event : Type :=
  | CacheLookup (path : string) (age : Z)
  | ReadPickle (path : string)
  | RemoteFetch (url file : string)
  | Validate (station : string)
  | WritePickle (path : string) (df : DataFrame F).

(** A computation: the events it performed and how it ended. *)
Definition M (A : Type) : Type := list event * (exn + A).

Definition ret {A : Type} (a : A) : M A := ([], inr a).

Definition bind {A B : Type} (m : M A) (k : A -> M B) : M B :=
  match m with
  | (t, inl e) => (t, inl e)
  | (t, inr a) => let r := k a in ((t ++ r.1)%list, r.2)
  end.

(** An external call: one event, and the collaborator's answer. *)
Definition call {A : Type} (e : event) (r : exn + A) : M A := ([e], r).

Definition trace {A : Type} (m : M A) : list event := m.1.
Definition result {A : Type} (m : M A) : exn + A := m.2.

(** A function applied to what a collaborator returned, if it did. *)
Definition on_result {A B : Type} (f : A -> B) (r : exn + A) : exn + B :=
  match r with
  | inl e => inl e
  | inr a => inr (f a)
  end.

(** The events that a cache hit must not perform. *)
Definition fetches_or_writes (e : event) : bool :=
  match e with
  | RemoteFetch _ _ | Validate _ | WritePickle _ _ => true
  | CacheLookup _ _ | ReadPickle _ => false
  end.
End Effects.

Arguments event F : clear implicits.
Arguments M F A : clear implicits.

Notation "'do' x <- m ; k" := (bind m (fun x => k))
  (at level 10, x name, m at level 100, k at level 200).

Section Loader.
Context {F : Type}.

(** The collaborators of the loader, none of them part of the sources at
    hand: the endpoint path, the cache ([get_local_file_path],
    [file_in_cache], pickling), the remote [load_handler], the
    validation and the pool that runs the loads. *)
Context {Granularity : Type} (DAILY : Granularity).
Context (generate_endpoint_path : Granularity -> string -> bool -> string).
Context (get_local_file_path : string -> string -> string -> string).
Context (file_in_cache : string -> Z -> bool).
Context (read_pickle : string -> exn + DataFrame F).
Context (load_handler :
           string -> string -> list string -> list (string * string) ->
           list (string * list nat) -> exn + DataFrame F).
Context (validate_series : DataFrame F -> string -> exn + DataFrame F).
Context (processing_handler :
           list (list string) -> (string -> M F (DataFrame F)) -> Z -> Z ->
           M F (option (DataFrame F))).

Definition _parse_dates : list (string * list nat) := [("time", [0%nat])].

(** Truth value of an optional [datetime]: [None] is false, a [datetime]
    is true. *)
Definition truthy (d : option Z) : bool :=
  match d with Some _ => true | None => false end.

(** [df.loc[(time >= start) & (time <= end)]] with
    [time = df.index.get_level_values('time')]. *)
Definition loc_between (start end_ : Z) (df : DataFrame F) : DataFrame F :=
  {| columns := columns df;
     rows := filter (fun r => start <= time r /\ time r <= end_) (rows df) |}.

(** The local path of the cache file of a station. *)
Definition cache_path (self : Daily F) (station : string) : string :=
  let file := generate_endpoint_path DAILY station (_model self) in
  get_local_file_path (cache_dir self) cache_subdir file.

(** The first half of [_load]: the table [df], read from the cache or
    fetched, validated and saved.  In [max_age > 0 and file_in_cache(..)]
    the cache is only looked up when [max_age > 0]. *)
Definition load_table (self : Daily F) (station : string)
  : M F (DataFrame F) :=
  let file := generate_endpoint_path DAILY station (_model self) in
  let path := get_local_file_path (cache_dir self) cache_subdir file in
  do hit <- (if 0 <? max_age self
             then call (CacheLookup path (max_age self))
                       (inr (file_in_cache path (max_age self)))
             else ret false);
  if hit : bool
  then call (ReadPickle path) (read_pickle path)
  else
    do df <- call (RemoteFetch (endpoint self) file)
                  (load_handler (endpoint self) file _columns _types
                                _parse_dates);
    do df <- call (Validate station) (validate_series df station);
    do saved <- (if 0 <? max_age self
                 then call (WritePickle path df) (inr tt)
                 else ret tt);
    ret df.

(** The second half: [if self._start and self._end] filters, otherwise
    the table is returned as it is. *)
Definition filter_period (self : Daily F) (df : DataFrame F)
  : DataFrame F :=
  if truthy (_start self) && truthy (_end self)
  then
    match _start self, _end self with
    | Some start, Some end_ => loc_between start end_ df
    | _, _ => df
    end
  else df.

Definition _load (self : Daily F) (station : string) : M F (DataFrame F) :=
  do df <- load_table self station;
  ret (filter_period self df).

(** [_get_data]: [Some] table, or [None] for Python's [None]. *)
Definition _get_data (self : Daily F) : M F (option (DataFrame F)) :=
  if (0 <? length (_stations self))%nat
  then
    let datasets := map (fun station => [station]) (_stations self) in
    processing_handler datasets (_load self) (processes self) (threads self)
  else ret (Some (DataFrame_of_columns (map fst _types))).
End Loader.

(** ** What the specification compares the resolver with *)

Section Reference.
Context {F : Type} `{Flt : Float F}.

Definition score_of (stations : gmap string (meta F)) (r : row F)
  : value F :=
  match stations !! station r with
  | Some m => score m
  | None => NaN
  end.

(** [a < b] on floats: false as soon as one side is NaN. *)
Definition vlt (a b : value F) : bool :=
  match a, b with
  | Some x, Some y => fltb x y
  | _, _ => false
  end.

(** The row of the highest-scored station among the rows of a bucket
    (the earliest one on a tie). *)
Fixpoint highest_scored (stations : gmap string (meta F))
    (g : list (row F)) : option (row F) :=
  match g with
  | [] => None
  | r :: g' =>
      match highest_scored stations g' with
      | Some r' =>
          if vlt (score_of stations r) (score_of stations r')
          then Some r' else Some r
      | None => Some r
      end
  end.

(** The three temperature columns. *)
Definition temperature (c : column) : bool :=
  match c with
  | tavg | tmin | tmax => true
  | _ => false
  end.

(** [T + (2/3) * ((E - alt) / 100)] *)
Definition lapse_rate (T E : F) (alt : Z) : F :=
  fadd T (fmul (fdiv (of_int 2) (of_int 3))
               (fdiv (fsub E (of_int alt)) (of_int 100))).

(** What the adjustment makes of the value [v] of column [c] in a row of a
    station of elevation [E]: the formula on a present temperature,
    nothing on a missing one or on another column. *)
Definition adjusted_value (c : column) (v : value F) (E : F) (alt : Z)
  : value F :=
  if temperature c
  then match v with
       | Some T => Some (lapse_rate T E alt)
       | None => None
       end
  else v.

(** A joined row with the correction added to its temperatures. *)
Definition corrected {H : Type} (elev : H -> value F) (alt : Z)
    (x : row F * H) : row F * H :=
  ({| station := station x.1; time := time x.1;
      data := build (fun c => if temperature c
                              then vadd (get c (data x.1)) (lapse elev alt x)
                              else get c (data x.1)) |},
   x.2).

(** Modelled from the spec: the weighted mean of section 4.3, which
    [weighted_average] (not part of the sources at hand) computes for each
    column of a bucket: the weight of a station is its score, and a
    missing value is left out of both the numerator and the denominator.
    A column that no station of the bucket has is missing in the
    result. *)
Definition weighted_mean (xs : list (value F * value F)) : value F :=
  let present := filter (fun x => notna x.1 = true) xs in
  match present with
  | [] => NaN
  | _ =>
      vdiv (foldr (fun x acc => vadd (vmul x.1 x.2) acc)
                  (Some (of_int 0)) present)
           (foldr (fun x acc => vadd x.2 acc) (Some (of_int 0)) present)
  end.

Definition weighted_average_spec (g : joined (meta F))
  : cells F * meta F :=
  (build (fun c => weighted_mean
                     (map (fun x => (get c (data x.1), score x.2)) g)),
   {| score := weighted_mean (map (fun x => (score x.2, score x.2)) g);
      elevation :=
        weighted_mean (map (fun x => (elevation x.2, score x.2)) g) |}).
End Reference.

(** ** Exact arithmetic

    The rationals, every result in lowest terms, with rounding to the
    nearest tenth (ties to the even tenth, as [numpy.round] does): the
    arithmetic used to run the model on concrete tables. *)

Definition Qround1 (q : Q) : Q :=
  let x := Qred (q * (10 # 1)) in
  let n := Qnum x in
  let d := Zpos (Qden x) in
  let f := n / d in
  let r := 2 * (n mod d) in
  let k := if r <? d then f
           else if d <? r then f + 1
           else if Z.even f then f else f + 1 in
  Qred (k # 10).

#[global] Instance Q_Float : Float Q := {|
  fadd a b := Qred (a + b);
  fsub a b := Qred (a - b);
  fmul a b := Qred (a * b);
  fdiv a b := Qred (a / b);
  feqb a b := Qeq_bool a b;
  fltb a b := negb (Qle_bool b a);
  fround1 := Qround1;
  of_int z := z # 1
|}.

(** ** binary64

    The arithmetic of Python's [float]: IEEE 754 double precision with
    rounding to nearest, ties to even (the kernel's primitive floats).
    [numpy.round(x, 1)] is [rint(x * 10) / 10]; below 2^52 in magnitude,
    [rint] is adding and subtracting 2^52. *)

Module Binary64.
Import PrimFloat.

Definition two52 : float := 4503599627370496%float.

Definition rint (x : float) : float :=
  if ltb (abs x) two52
  then if ltb x 0%float then add (sub x two52) two52
       else sub (add x two52) two52
  else x.

Definition round1 (x : float) : float :=
  div (rint (mul x 10%float)) 10%float.

(** Exact for every integer below 2^53 in magnitude. *)
Fixpoint of_pos (p : positive) : float :=
  match p with
  | xH => 1%float
  | xO p' => mul 2%float (of_pos p')
  | xI p' => add (mul 2%float (of_pos p')) 1%float
  end.

Definition of_Z (z : Z) : float :=
  match z with
  | Z0 => 0%float
  | Zpos p => of_pos p
  | Zneg p => opp (of_pos p)
  end.

Definition binary64 : Float float := {|
  fadd := add; fsub := sub; fmul := mul; fdiv := div;
  feqb := eqb; fltb := ltb; fround1 := round1; of_int := of_Z
|}.

(** One station at 500 m with an average temperature of 10.0. *)
Definition one_row : row float :=
  Row "10637" 0 (set tavg (Some 10%float) (build (fun _ => NaN))).

Definition stations : gmap string (meta float) :=
  <["10637" := Meta (Some 0.5%float) (Some 500%float)]> ∅.

Definition one_station : Daily float :=
  {| _stations := ["10637"]; _start := None; _end := None; _model := true;
     _data := Frame _types [one_row];
     endpoint := "https://bulk.meteostat.net/v2/";
     cache_dir := "/tmp/.meteostat/cache"; max_age := 86400;
     autoclean := true; processes := 1; threads := 1 |}.

Definition resolve_point :=
  @_resolve_point float binary64 (@weighted_average_spec float binary64).
End Binary64.

(** ** Sample data: two stations around a point *)

Module Sample.
Local Open Scope Q_scope.

Definition no_cells : cells Q := build (fun _ => NaN).

(** The nearer station (higher score) reports no average temperature
    and no wind direction on day 0; the farther one reports both. *)
Definition near_row : row Q :=
  Row "10637" 0 (set tmin (Some 1) (set tmax (Some 9) no_cells)).

Definition far_row : row Q :=
  Row "10635" 0
      (set tavg (Some (21 # 4))
         (set tmin (Some 2) (set wdir (Some 180) no_cells))).

Definition stations : gmap string (meta Q) :=
  <["10637" := Meta (Some (9 # 10)) (Some 500)]>
    (<["10635" := Meta (Some (1 # 2)) (Some 300)]> ∅).

(** A stations table that does not list the farther station. *)
Definition stations_partial : gmap string (meta Q) :=
  <["10637" := Meta (Some (9 # 10)) (Some 500)]> ∅.

Definition daily (ids : list string) (tbl : list (row Q))
    (start end_ : option Z) (age : Z) : Daily Q :=
  {| _stations := ids; _start := start; _end := end_; _model := true;
     _data := Frame _types tbl; endpoint := "https://bulk.meteostat.net/v2/";
     cache_dir := "/tmp/.meteostat/cache"; max_age := age;
     autoclean := true; processes := 1; threads := 1 |}.

Definition two_stations : Daily Q :=
  daily ["10637"; "10635"] [near_row; far_row] None None 86400.

(** One station at 500 m with an average temperature of 10.0. *)
Definition one_row : row Q := Row "10637" 0 (set tavg (Some 10) no_cells).

Definition one_station : Daily Q :=
  daily ["10637"] [one_row] None None 86400.

Definition no_stations : Daily Q := daily [] [] None None 86400.

(** Three days of one station, as a cached table. *)
Definition three_days : DataFrame Q :=
  Frame _types
    [Row "10637" 0 (set tavg (Some 1) no_cells);
     Row "10637" 86400 (set tavg (Some 2) no_cells);
     Row "10637" 172800 (set tavg (Some 3) no_cells)].

(** A world in which every cache file is fresh and holds [three_days],
    and the endpoint serves the same table. *)
Definition generate_endpoint_path (g : unit) (station : string)
    (model : bool) : string :=
  "daily/" ++ station ++ ".csv.gz".

Definition get_local_file_path (dir subdir file : string) : string :=
  dir ++ "/" ++ subdir ++ "/" ++ file.

Definition file_in_cache (path : string) (age : Z) : bool := true.

Definition read_pickle (path : string) : exn + DataFrame Q :=
  inr three_days.

Definition load_handler (url file : string) (cols : list string)
    (types : list (string * string)) (dates : list (string * list nat))
  : exn + DataFrame Q :=
  inr three_days.

Definition validate_series (df : DataFrame Q) (station : string)
  : exn + DataFrame Q :=
  inr df.

Definition processing_handler (datasets : list (list string))
    (load : string -> M Q (DataFrame Q)) (procs thrds : Z)
  : M Q (option (DataFrame Q)) :=
  ret None.

Definition load (self : Daily Q) (station : string) : M Q (DataFrame Q) :=
  _load tt generate_endpoint_path get_local_file_path file_in_cache
        read_pickle load_handler validate_series self station.

Definition path (self : Daily Q) (station : string) : string :=
  cache_path tt generate_endpoint_path get_local_file_path self station.

Definition table (self : Daily Q) (station : string) : M Q (DataFrame Q) :=
  load_table tt generate_endpoint_path get_local_file_path file_in_cache
             read_pickle load_handler validate_series self station.

Definition get_data (self : Daily Q) : M Q (option (DataFrame Q)) :=
  _get_data tt generate_endpoint_path get_local_file_path file_in_cache
            read_pickle load_handler validate_series processing_handler
            self.

(** The same station with a cache of one day, asked for the second and
    third day, or from the second day on. *)
Definition two_days : Daily Q :=
  daily ["10637"] [] (Some 86400%Z) (Some 172800%Z) 86400.

Definition open_ended : Daily Q :=
  daily ["10637"] [] (Some 86400%Z) None 86400.
End Sample.

(** ** The rest of the class: [expected_rows] and [__init__] *)

Definition TypeError : exn := Exn "TypeError".

Definition AttributeError : exn := Exn "AttributeError".

(** A [Point], as far as [__init__] reads it: three attributes and
    [get_stations], which returns the stations table of the nearby
    stations, here its index (the station ids, in its order) and its rows
    by station id. *)
Module Point.
Record t (F : Type) : Type := {
  method : string;
  alt : Z;
  adapt_temp : bool;
  get_stations :
    string -> option Z -> option Z -> bool ->
    list string * gmap string (meta F)
}.
Arguments method {F} _.
Arguments alt {F} _.
Arguments adapt_temp {F} _.
Arguments get_stations {F} _ _ _ _ _.
End Point.

(** The argument [loc] of [__init__], of type
    [Union[pd.DataFrame, Point, list, str]]; of a table only the index is
    read. *)
Inductive location (F : Type) : Type :=
  | LocFrame (index : list string)
  | LocPoint (p : Point.t F)
  | LocList (ids : list string)
  | LocOther (id : string).

Arguments LocFrame {F} _.
Arguments LocPoint {F} _.
Arguments LocList {F} _.
Arguments LocOther {F} _.

Section Container.
Context {F : Type} `{Flt : Float F}.
Context (weighted_average : @joined F (meta F) -> cells F * meta F).
Context {Granularity : Type} (DAILY : Granularity).
Context (generate_endpoint_path : Granularity -> string -> bool -> string).
Context (get_local_file_path : string -> string -> string -> string).
Context (file_in_cache : string -> Z -> bool).
Context (read_pickle : string -> exn + DataFrame F).
Context (load_handler :
           string -> string -> list string -> list (string * string) ->
           list (string * list nat) -> exn + DataFrame F).
Context (validate_series : DataFrame F -> string -> exn + DataFrame F).
Context (processing_handler :
           list (list string) -> (string -> M F (DataFrame F)) -> Z -> Z ->
           M F (option (DataFrame F))).

(** [expected_rows] (lines 282 to 287): [(self._end - self._start).days + 1].
    The days of a [timedelta] are the difference rounded down to whole
    days; a subtraction with [None] raises [TypeError]. *)
Definition expected_rows (self : Daily F) : exn + Z :=
  match _end self, _start self with
  | Some end_, Some start => inr ((end_ - start) / 86400 + 1)
  | _, _ => inl TypeError
  end.

(** The same object asked for another period. *)
Definition with_period (self : Daily F) (start end_ : option Z) : Daily F :=
  {| _stations := _stations self; _start := start; _end := end_;
     _model := _model self; _data := _data self; endpoint := endpoint self;
     cache_dir := cache_dir self; max_age := max_age self;
     autoclean := autoclean self; processes := processes self;
     threads := threads self |}.

(** What [__init__] does to the outside world: the search for the stations
    near a point, the events of the acquisition, and [clear_cache]. *)
Inductive init_event : Type :=
  | NearbyStations (granularity : string) (start end_ : option Z)
                   (model : bool)
  | Acquire (e : event F)
  | ClearCache.

(** The object that [__init__] leaves: with a table as [_data], or with
    Python's [None] as [_data] when the pool returned [None] (the [_data]
    of [self] is then not meant). *)
Inductive built : Type :=
  | Built (self : Daily F)
  | BuiltNoData (self : Daily F).

(** The object after lines 250 to 269 of [__init__]: the station ids, the
    period and the model flag are set, [_data] is not yet.  [cls] holds
    the attributes that the class inherits ([endpoint], [cache_dir],
    [max_age], [autoclean], [processes], [threads]). *)
Definition fresh (cls : Daily F) (ids : list string) (start end_ : option Z)
    (model : bool) : Daily F :=
  {| _stations := ids; _start := start; _end := end_; _model := model;
     _data := _data cls; endpoint := endpoint cls;
     cache_dir := cache_dir cls; max_age := max_age cls;
     autoclean := autoclean cls; processes := processes cls;
     threads := threads cls |}.

(** [__init__] (lines 242 to 280): the station ids by the type of [loc],
    the acquisition, the resolution for a point, and the clearing of the
    cache. *)
Definition __init__ (cls : Daily F) (loc : location F)
    (start end_ : option Z) (model : bool)
  : list init_event * (exn + built) :=
  let found :=
    match loc with
    | LocPoint p => Point.get_stations p "daily" start end_ model
    | _ => ([], ∅)
    end in
  let ids :=
    match loc with
    | LocFrame index => index
    | LocPoint _ => found.1
    | LocList ids => ids
    | LocOther id => [id]
    end in
  let searched :=
    match loc with
    | LocPoint _ => [NearbyStations "daily" start end_ model]
    | _ => []
    end in
  let self := fresh cls ids start end_ model in
  let acquired :=
    _get_data DAILY generate_endpoint_path get_local_file_path file_in_cache
              read_pickle load_handler validate_series processing_handler
              self in
  let events := (searched ++ map Acquire (trace acquired))%list in
  match result acquired with
  | inl e => (events, inl e)
  | inr d =>
      let interpolated : exn + built :=
        match loc, d with
        | LocPoint p, Some df =>
            on_result Built
              (_resolve_point weighted_average (with_data self df ids)
                              (Point.method p) found.2 (Point.alt p)
                              (Point.adapt_temp p))
        | LocPoint p, None =>
            if bool_decide (length ids = 0%nat)
            then inr (BuiltNoData self)
            else inl AttributeError
        | _, Some df => inr (Built (with_data self df ids))
        | _, None => inr (BuiltNoData self)
        end in
      match interpolated with
      | inl e => (events, inl e)
      | inr b =>
          ((events ++
            if (0 <? max_age cls) && autoclean cls then [ClearCache]
            else [])%list,
           inr b)
      end
  end.
End Container.

Arguments init_event F : clear implicits.
Arguments built F : clear implicits.

(** ** More sample data: a cold cache, a dead endpoint, a point *)

Module Sample2.
Local Open Scope Q_scope.

(** Three days of one station, asked for from the first to the third
    day. *)
Definition series : Daily Q :=
  Sample.daily ["10637"] (rows Sample.three_days) (Some 0%Z)
               (Some 172800%Z) 86400.

(** The first and the third day only. *)
Definition gappy : Daily Q :=
  Sample.daily ["10637"]
    [Row "10637" 0 (set tavg (Some 1) Sample.no_cells);
     Row "10637" 172800 (set tavg (Some 3) Sample.no_cells)]
    (Some 0%Z) (Some 172800%Z) 86400.

Definition cold_cache (path : string) (age : Z) : bool := false.

Definition dead_endpoint (url file : string) (cols : list string)
    (types : list (string * string)) (dates : list (string * list nat))
  : exn + DataFrame Q :=
  inl (Exn "HTTPError").

Definition reject (df : DataFrame Q) (station : string)
  : exn + DataFrame Q :=
  inl (Exn "ValueError").

(** The load of a station in a world given by its cache test, its
    endpoint and its validation. *)
Definition load (in_cache : string -> Z -> bool)
    (handler : string -> string -> list string -> list (string * string) ->
               list (string * list nat) -> exn + DataFrame Q)
    (validate : DataFrame Q -> string -> exn + DataFrame Q)
    (self : Daily Q) (station : string) : M Q (DataFrame Q) :=
  _load tt Sample.generate_endpoint_path Sample.get_local_file_path in_cache
        Sample.read_pickle handler validate self station.

(** A pool that loads the stations one after the other and stacks their
    tables. *)
Fixpoint pool (datasets : list (list string))
    (load : string -> M Q (DataFrame Q)) (procs thrds : Z)
  : M Q (option (DataFrame Q)) :=
  match datasets with
  | [] => ret (Some (Frame _types []))
  | [station] :: rest =>
      do df <- load station;
      do more <- pool rest load procs thrds;
      ret (Some (Frame _types
                   (rows df ++ rows (default (Frame _types []) more))))
  | _ :: rest => pool rest load procs thrds
  end.

Definition cls : Daily Q := Sample.daily [] [] None None 86400.

Definition point : Point.t Q :=
  {| Point.method := "nearest"; Point.alt := 100; Point.adapt_temp := false;
     Point.get_stations := fun _ _ _ _ => (["10637"; "10635"],
                                           Sample.stations) |}.

(** A point with no station around it. *)
Definition nowhere : Point.t Q :=
  {| Point.method := "nearest"; Point.alt := 100; Point.adapt_temp := true;
     Point.get_stations := fun _ _ _ _ => ([], ∅) |}.

Definition init (loc : location Q) (start end_ : option Z)
  : list (init_event Q) * (exn + built Q) :=
  __init__ weighted_average_spec tt Sample.generate_endpoint_path
           Sample.get_local_file_path Sample.file_in_cache
           Sample.read_pickle Sample.load_handler Sample.validate_series
           pool cls loc start end_ true.

(** What the pool returns for the two stations of [point]. *)
Definition stacked : DataFrame Q :=
  Frame _types (rows Sample.three_days ++ rows Sample.three_days).

(** An object of a class that does not cache. *)
Definition uncached : Daily Q := Sample.daily ["10637"] [] None None 0.
End Sample2.

(** * Properties *)

(** ** Cells and columns *)

Section CellFacts.
Context {F : Type}.

Lemma get_build (f : column -> value F) (c : column) :
  get c (build f) = f c.
Proof. by destruct c. Qed.

Lemma cells_ext (a b : cells F) :
  (forall c, get c a = get c b) -> a = b.
Proof.
  intros E. destruct a, b.
  pose proof (E tavg); pose proof (E tmin); pose proof (E tmax);
    pose proof (E prcp); pose proof (E snow); pose proof (E wdir);
    pose proof (E wspd); pose proof (E wpgt); pose proof (E pres);
    pose proof (E tsun).
  simpl in *. congruence.
Qed.

Lemma get_set (c c' : column) (v : value F) (r : cells F) :
  get c' (set c v r) = if decide (c' = c) then v else get c' r.
Proof. unfold set. by rewrite get_build. Qed.

Lemma get_set_eq (c : column) (v : value F) (r : cells F) :
  get c (set c v r) = v.
Proof. rewrite get_set. by case_decide. Qed.

Lemma get_set_ne (c c' : column) (v : value F) (r : cells F) :
  c' <> c -> get c' (set c v r) = get c' r.
Proof. intros. rewrite get_set. by case_decide. Qed.

Lemma get_round_cells `{Flt : Float F} (c : column) (r : cells F) :
  get c (round_cells r) = vround (get c r).
Proof. unfold round_cells. by rewrite get_build. Qed.

Lemma get_agg_first (c : column) (g : list (row F)) :
  get c (agg_first g) = first (col c g).
Proof. unfold agg_first. by rewrite get_build. Qed.
End CellFacts.

(** ** The [first] aggregation *)

Section FirstFacts.
Context {F : Type}.
Implicit Types vs : list (value F).

(** Rounding keeps missing values missing, so it commutes with [first]. *)
Lemma first_vround `{Flt : Float F} vs :
  first (map vround vs) = vround (first vs).
Proof. induction vs as [|[x|] vs IH]; simpl; auto. Qed.

(** [first] is the earliest entry that is not missing ... *)
Lemma first_Some vs (x : F) :
  first vs = Some x <->
  exists i : nat,
    vs !! i = Some (Some x) /\
    forall j : nat, (j < i)%nat -> vs !! j = Some None.
Proof.
  induction vs as [|[y|] vs IH]; simpl.
  - split; [discriminate|]. intros (i & Hi & _). by destruct i.
  - split.
    + intros [= ->]. exists 0%nat. split; [done|]. lia.
    + intros (i & Hi & Hlt). destruct i as [|i]; [by simplify_eq/=|].
      specialize (Hlt 0%nat ltac:(lia)). by simplify_eq/=.
  - rewrite IH. split; intros (i & Hi & Hlt).
    + exists (S i). split; [done|]. intros [|j] ?; [done|].
      apply Hlt. lia.
    + destruct i as [|i]; [by simplify_eq/=|].
      exists i. split; [done|]. intros j ?.
      apply (Hlt (S j)). lia.
Qed.

(** ... and missing exactly when every entry is. *)
Lemma first_None vs :
  first vs = None <-> forall v, v ∈ vs -> v = None.
Proof.
  induction vs as [|[y|] vs IH]; simpl.
  - split; [|done]. intros _ v Hv. by apply elem_of_nil in Hv.
  - split; [discriminate|]. intros Hall.
    specialize (Hall (Some y) ltac:(left)). discriminate.
  - rewrite IH. split; intros Hall v Hv.
    + apply elem_of_cons in Hv as [->|Hv]; auto.
    + apply Hall. by right.
Qed.

Lemma first_head vs (x : F) : head vs = Some (Some x) -> first vs = Some x.
Proof. destruct vs as [|[y|] vs]; simpl; congruence. Qed.
End FirstFacts.

(** ** Grouping *)

Lemma map_fmap {A B : Type} (f : A -> B) (l : list A) : map f l = f <$> l.
Proof. induction l as [|x l IH]; csimpl; [done|]. by rewrite IH. Qed.

Lemma filter_iff_on {A : Type} (P1 P2 : A -> Prop)
    `{!forall x, Decision (P1 x), !forall x, Decision (P2 x)} (l : list A) :
  (forall x, x ∈ l -> P1 x <-> P2 x) -> filter P1 l = filter P2 l.
Proof.
  induction l as [|a l IH]; intros E; [done|].
  rewrite !filter_cons, IH.
  - pose proof (E a ltac:(left)). repeat case_decide; tauto.
  - intros x Hx. apply E. by right.
Qed.

Lemma filter_map {A B : Type} (f : A -> B) (P : B -> Prop)
    `{!forall y, Decision (P y)} (l : list A) :
  filter P (map f l) = map f (filter (fun x => P (f x)) l).
Proof.
  induction l as [|a l IH]; simpl; [done|].
  rewrite !filter_cons, IH. by case_decide.
Qed.

Section GroupFacts.
Context {A : Type} (t : A -> Z).
Implicit Types (l : list A) (x : A) (b : Z).

Lemma insert_by_time_perm x l : insert_by_time t x l ≡ₚ x :: l.
Proof.
  induction l as [|y l IH]; simpl; [done|].
  case_match; [done|]. rewrite IH. apply Permutation_swap.
Qed.

Lemma sort_by_time_perm l : sort_by_time t l ≡ₚ l.
Proof.
  induction l as [|x l IH]; simpl; [done|].
  by rewrite insert_by_time_perm, IH.
Qed.

(** The sort is stable: the rows of one timestamp keep their order. *)
Lemma filter_insert_by_time (k : Z) x l :
  filter (fun y => t y = k) (insert_by_time t x l) =
  filter (fun y => t y = k) (x :: l).
Proof.
  induction l as [|y l IH]; simpl; [done|].
  destruct (Z.leb_spec (t x) (t y)) as [Hle|Hlt]; [done|].
  rewrite (filter_cons _ y), IH, !filter_cons.
  repeat case_decide; try done; lia.
Qed.

Lemma sort_by_time_stable (k : Z) l :
  filter (fun y => t y = k) (sort_by_time t l) = filter (fun y => t y = k) l.
Proof.
  induction l as [|x l IH]; simpl; [done|].
  rewrite filter_insert_by_time, !filter_cons. by rewrite IH.
Qed.


Lemma elem_of_groupby l b (g : list A) :
  (b, g) ∈ groupby t l <-> b ∈ bins t l /\ g = group t l b.
Proof.
  unfold groupby. rewrite map_fmap, list_elem_of_fmap. split.
  - intros (b' & [= -> ->] & Hb). done.
  - intros [Hb ->]. by exists b.
Qed.

Lemma groupby_keys l : map fst (groupby t l) = bins t l.
Proof.
  unfold groupby. rewrite map_map. simpl. apply map_id.
Qed.

(** A table of daily observations carries one timestamp per day, the
    start of the day: then the rows of a bucket are the rows of that day,
    in table order. *)
Lemma group_daily l b :
  (forall x, x ∈ l -> bucket (t x) = t x) ->
  group t l b = filter (fun x => t x = b) l.
Proof.
  intros Hday. unfold group. rewrite <- sort_by_time_stable.
  apply filter_iff_on. intros x Hx.
  rewrite sort_by_time_perm in Hx. by rewrite (Hday x Hx).
Qed.
End GroupFacts.

Section GroupMapFacts.
Context {A B : Type} (t : B -> Z) (f : A -> B).

Lemma insert_by_time_map (x : A) (l : list A) :
  insert_by_time t (f x) (map f l) =
  map f (insert_by_time (fun y => t (f y)) x l).
Proof.
  induction l as [|y l IH]; simpl; [done|].
  case_match; simpl; [done|]. by rewrite IH.
Qed.

Lemma sort_by_time_map (l : list A) :
  sort_by_time t (map f l) = map f (sort_by_time (fun y => t (f y)) l).
Proof.
  induction l as [|x l IH]; simpl; [done|].
  by rewrite IH, insert_by_time_map.
Qed.

Lemma bins_map (l : list A) :
  bins t (map f l) = bins (fun y => t (f y)) l.
Proof. unfold bins. by rewrite map_map. Qed.

(** Mapping a table row by row commutes with grouping it. *)
Lemma group_map (l : list A) (b : Z) :
  group t (map f l) b = map f (group (fun y => t (f y)) l b).
Proof.
  unfold group. by rewrite sort_by_time_map, filter_map.
Qed.
End GroupMapFacts.

(** Two timestamp functions that agree give the same groups. *)
Lemma group_ext {A : Type} (t t' : A -> Z) (l : list A) (b : Z) :
  (forall x, t x = t' x) -> group t l b = group t' l b.
Proof.
  intros E. unfold group.
  assert (sort_by_time t l = sort_by_time t' l) as ->.
  { induction l as [|x l IH]; simpl; [done|]. rewrite IH.
    generalize (sort_by_time t' l). intros s.
    induction s as [|y s IHs]; simpl; [done|]. by rewrite !E, IHs. }
  apply list_filter_iff. intros x. by rewrite E.
Qed.

Lemma bins_ext {A : Type} (t t' : A -> Z) (l : list A) :
  (forall x, t x = t' x) -> bins t l = bins t' l.
Proof.
  intros E. unfold bins.
  assert (map (fun x => bucket (t x)) l = map (fun x => bucket (t' x)) l)
    as ->; [|done].
  apply map_ext. intros x. by rewrite E.
Qed.

(** A table keyed by bucket label finds the entry of each of its labels. *)
Lemma lookup_keyed {V : Type} (h : Z -> V) (bs : list Z) (b : Z) :
  b ∈ bs ->
  (list_to_map (map (fun b' => (b', h b')) bs) : gmap Z V) !! b = Some (h b).
Proof.
  induction bs as [|b0 bs IH]; simpl; [by intros ?%elem_of_nil|].
  intros Hb. destruct (decide (b0 = b)) as [->|Hne].
  - by rewrite lookup_insert_eq.
  - rewrite lookup_insert_ne by done. apply IH.
    apply elem_of_cons in Hb as [->|]; done.
Qed.

(** ** Temperature adjustment *)

Section AdjustFacts.
Context {F : Type} `{Flt : Float F} {H : Type}.
Context (elev : H -> value F) (alt : Z).
Implicit Types (tbl : @joined F H) (x : row F * H) (c : column).

(** The mask [data[c] != np.NaN] selects every row. *)
Lemma vne_NaN (v : value F) : vne v NaN = true.
Proof. by destruct v. Qed.

Lemma adjust_column_map c tbl :
  adjust_column elev alt c tbl =
  map (fun x => (set_cell c (vadd (get c (data x.1)) (lapse elev alt x)) x.1,
                 x.2)) tbl.
Proof.
  unfold adjust_column. apply map_ext. intros x. by rewrite vne_NaN.
Qed.

(** [adjust_temp] corrects the table row by row. *)
Lemma adjust_temp_map tbl :
  adjust_temp elev alt tbl = map (corrected elev alt) tbl.
Proof.
  unfold adjust_temp. rewrite !adjust_column_map, !map_map.
  apply map_ext. intros [r h]. reflexivity.
Qed.

Lemma adjust_temp_time tbl :
  map time_of (adjust_temp elev alt tbl) = map time_of tbl.
Proof. rewrite adjust_temp_map, map_map. by apply map_ext. Qed.

Lemma get_corrected c x :
  get c (data (corrected elev alt x).1) =
  if temperature c then vadd (get c (data x.1)) (lapse elev alt x)
  else get c (data x.1).
Proof. unfold corrected. simpl. by rewrite get_build. Qed.

(** With the elevation of the station known, the correction is the
    lapse-rate formula on a present temperature and leaves a missing one
    missing. *)
Lemma get_corrected_elevation c x (E : F) :
  elev x.2 = Some E ->
  get c (data (corrected elev alt x).1) =
  adjusted_value c (get c (data x.1)) E alt.
Proof.
  intros HE. rewrite get_corrected. unfold adjusted_value.
  destruct (temperature c); [|done].
  unfold lapse. rewrite HE. by destruct (get c (data x.1)).
Qed.
End AdjustFacts.

(** ** Point resolution *)

Section ResolverFacts.
Context {F : Type} `{Flt : Float F}.
Context (weighted_average : @joined F (meta F) -> cells F * meta F).
Implicit Types (self : Daily F) (stations : gmap string (meta F)).
Implicit Types (method : string) (alt : Z) (adapt_temp : bool).

(** A table without rows has size zero. *)
Lemma size_no_rows (df : DataFrame F) : rows df = [] -> size df = 0%nat.
Proof. unfold size. by intros ->. Qed.

(** Past the guard, [_resolve_point] replaces the table by the resolved
    one, every row under the station id [XXXXX], and the station ids by
    that one id. *)
Lemma resolve_point_resolved self method stations alt adapt_temp :
  _stations self <> [] -> size (_data self) <> 0%nat ->
  _resolve_point weighted_average self method stations alt adapt_temp =
  inr (with_data self
         {| columns := columns (_data self);
            rows := map (fun bc => Row "XXXXX" bc.1 bc.2)
                        (if String.eqb method "nearest"
                         then resolve_nearest self stations alt adapt_temp
                         else resolve_weighted weighted_average self
                                               stations alt adapt_temp) |}
         ["XXXXX"]).
Proof.
  intros Hst Hsz. unfold _resolve_point.
  rewrite (bool_decide_eq_false_2 (length (_stations self) = 0%nat)).
  - by rewrite (bool_decide_eq_false_2 _ Hsz).
  - by destruct (_stations self).
Qed.

Lemma resolve_nearest_bins self stations alt adapt_temp :
  resolve_nearest self stations alt adapt_temp =
  map (fun b => (b, agg_first
                      (group time
                         (nearest_data self stations alt adapt_temp) b)))
      (bins time (nearest_data self stations alt adapt_temp)).
Proof. unfold resolve_nearest, groupby. by rewrite map_map. Qed.

Lemma resolve_weighted_bins self stations alt adapt_temp :
  resolve_weighted weighted_average self stations alt adapt_temp =
  map (fun b =>
         (b, let g := group time_of
                        (weighted_data self stations alt adapt_temp) b in
             round_cells
               (set wdir (first (col wdir (drop g)))
                    (weighted_average g).1)))
      (bins time_of (weighted_data self stations alt adapt_temp)).
Proof.
  unfold resolve_weighted, groupby. rewrite !map_map. simpl.
  apply map_ext_in. intros b Hb%list_elem_of_In.
  by rewrite (lookup_keyed
                (fun b' => first (col wdir (drop (group time_of _ b')))) _ _
                Hb).
Qed.

(** The rows of a resolved table: one per bucket label. *)
Lemma elem_of_resolved_rows (h : Z -> cells F) (bs : list Z) (r : row F) :
  r ∈ map (fun bc : Z * cells F => Row "XXXXX" bc.1 bc.2)
          (map (fun b => (b, h b)) bs) <->
  exists b, b ∈ bs /\ r = Row "XXXXX" b (h b).
Proof.
  rewrite map_map, map_fmap, list_elem_of_fmap. simpl. split.
  - intros (b & -> & Hb). by exists b.
  - intros (b & Hb & ->). by exists b.
Qed.

(** C9. If the station set is empty or the data table is empty (it has
    size zero) when point resolution is invoked, resolution is a no-op:
    the object, that is the data table and the station ids with it, is
    the one passed in, and no error is raised. *)
Theorem resolve_point_noop self method stations alt adapt_temp :
  _stations self = [] \/ size (_data self) = 0%nat ->
  _resolve_point weighted_average self method stations alt adapt_temp =
  inr self.
Proof.
  intros [Hst|Hsz]; unfold _resolve_point.
  - by rewrite Hst.
  - rewrite Hsz. simpl. by rewrite orb_true_r.
Qed.

Lemma col_lookup (c : column) (g : list (row F)) (i : nat) :
  col c g !! i = (fun r => get c (data r)) <$> g !! i.
Proof. unfold col. rewrite map_fmap. apply list_lookup_fmap. Qed.

(** What [agg('first')] makes of a group: each column holds the value of
    the earliest row of the group that has one, and is missing when no
    row has one; the cells are those of the first row when that row
    misses nothing. *)
Lemma agg_first_spec (g : list (row F)) :
  (forall c x,
      get c (agg_first g) = Some x <->
      exists (i : nat) (r0 : row F),
        g !! i = Some r0 /\ get c (data r0) = Some x /\
        forall (j : nat) (r1 : row F),
          (j < i)%nat -> g !! j = Some r1 -> get c (data r1) = None) /\
  (forall c,
      get c (agg_first g) = None <->
      forall r0, r0 ∈ g -> get c (data r0) = None) /\
  (forall r0,
      head g = Some r0 -> (forall c, is_Some (get c (data r0))) ->
      agg_first g = data r0).
Proof.
  split; [|split].
  - intros c x. rewrite get_agg_first, first_Some. split.
    + intros (i & Hi & Hlt). rewrite col_lookup in Hi.
      apply fmap_Some in Hi as (r0 & Hr0 & Hx). exists i, r0.
      split; [done|]. split; [done|]. intros j r1 Hj Hr1.
      specialize (Hlt j Hj). rewrite col_lookup, Hr1 in Hlt.
      by simplify_eq/=.
    + intros (i & r0 & Hr0 & Hx & Hlt). exists i. split.
      * rewrite col_lookup, Hr0. simpl. by rewrite Hx.
      * intros j Hj. rewrite col_lookup.
        destruct (g !! j) as [r1|] eqn:Hr1; simpl.
        -- by rewrite (Hlt j r1 Hj Hr1).
        -- apply lookup_ge_None in Hr1. apply lookup_lt_Some in Hr0. lia.
  - intros c. rewrite get_agg_first, first_None. unfold col.
    rewrite map_fmap. split.
    + intros Hall r0 Hr0. apply Hall. apply list_elem_of_fmap. eauto.
    + intros Hall v (r0 & -> & Hr0)%list_elem_of_fmap. by apply Hall.
  - intros r0 Hhd Hfull. destruct g as [|r g']; simplify_eq/=.
    apply cells_ext. intros c. rewrite get_agg_first. simpl.
    by destruct (Hfull c) as [x ->].
Qed.

Lemma round_row_time (r : row F) : time (round_row r) = time r.
Proof. done. Qed.

(** Rounding the rows of a table before [agg('first')] gives what
    rounding after it gives. *)
Lemma agg_first_round (g : list (row F)) :
  agg_first (map round_row g) = round_cells (agg_first g).
Proof.
  apply cells_ext. intros c.
  rewrite get_round_cells, !get_agg_first, <- first_vround. f_equal.
  unfold col. rewrite !map_map. apply map_ext. intros r. simpl.
  by rewrite get_round_cells.
Qed.

Lemma group_round (l : list (row F)) (b : Z) :
  group time (map round_row l) b = map round_row (group time l b).
Proof. exact (group_map time round_row l b). Qed.

(** The table that the nearest branch groups: the table of the object,
    or its rows corrected for altitude and rounded. *)
Lemma nearest_data_rows self stations alt adapt_temp :
  nearest_data self stations alt adapt_temp =
  if adapt_temp
  then map (fun x => round_row (corrected id alt x).1)
           (join elevation NaN stations (rows (_data self)))
  else rows (_data self).
Proof.
  unfold nearest_data. destruct adapt_temp; [|done].
  unfold drop. by rewrite adjust_temp_map, !map_map.
Qed.

(** With [adapt_temp], the row of a station of known elevation enters the
    grouping of either branch with its values adjusted (and, in the
    nearest branch, rounded). *)
Lemma weighted_data_adapt self stations alt (i : nat) (r : row F)
    (m : meta F) (E : F) :
  rows (_data self) !! i = Some r ->
  stations !! station r = Some m -> elevation m = Some E ->
  exists y,
    weighted_data self stations alt true !! i = Some y /\
    station y.1 = station r /\ time y.1 = time r /\ y.2 = m /\
    forall c, get c (data y.1) = adjusted_value c (get c (data r)) E alt.
Proof.
  intros Hr Hm HE. exists (corrected elevation alt (r, m)).
  split; [|repeat split].
  - unfold weighted_data, join.
    rewrite adjust_temp_map, map_map, map_fmap.
    unfold joined. rewrite list_lookup_fmap, Hr. simpl. by rewrite Hm.
  - intros c. by rewrite (get_corrected_elevation elevation alt c (r, m) E HE).
Qed.

Lemma nearest_data_adapt self stations alt (i : nat) (r : row F)
    (m : meta F) (E : F) :
  rows (_data self) !! i = Some r ->
  stations !! station r = Some m -> elevation m = Some E ->
  exists r',
    nearest_data self stations alt true !! i = Some r' /\
    station r' = station r /\ time r' = time r /\
    forall c,
      get c (data r') = vround (adjusted_value c (get c (data r)) E alt).
Proof.
  intros Hr Hm HE.
  exists (round_row (corrected id alt (r, elevation m)).1).
  split; [|repeat split].
  - rewrite nearest_data_rows. unfold join.
    rewrite map_map, map_fmap, list_lookup_fmap, Hr. simpl. by rewrite Hm.
  - intros c. unfold round_row. cbn [data]. rewrite get_round_cells.
    by rewrite (get_corrected_elevation id alt c (r, elevation m) E HE).
Qed.

(** C1, as the code has it.  For the nearest method, the resolved series
    has one row per time bucket, and in every bucket the value of every
    variable is the one of the earliest row of the bucket, in grouping
    order, that has this variable (and is missing only if none has it);
    the values come from the table corrected for altitude and rounded
    when [adapt_temp] is set.  The row of the first station is taken
    wholesale when it misses no variable.  In a table of daily timestamps
    the rows of a bucket are the rows of that day in table order. *)
Theorem nearest_first_present self stations alt adapt_temp :
  _stations self <> [] -> size (_data self) <> 0%nat ->
  exists self',
    _resolve_point weighted_average self "nearest" stations alt adapt_temp
    = inr self' /\
    map time (rows (_data self')) =
      bins time (nearest_data self stations alt adapt_temp) /\
    forall r, r ∈ rows (_data self') ->
      let g := group time (nearest_data self stations alt adapt_temp)
                     (time r) in
      (forall c x,
          get c (data r) = Some x <->
          exists (i : nat) (r0 : row F),
            g !! i = Some r0 /\ get c (data r0) = Some x /\
            forall (j : nat) (r1 : row F),
              (j < i)%nat -> g !! j = Some r1 -> get c (data r1) = None) /\
      (forall c,
          get c (data r) = None <->
          forall r0, r0 ∈ g -> get c (data r0) = None) /\
      (forall r0,
          head g = Some r0 -> (forall c, is_Some (get c (data r0))) ->
          data r = data r0) /\
      ((forall x, x ∈ nearest_data self stations alt adapt_temp ->
                  bucket (time x) = time x) ->
       g = filter (fun x => time x = time r)
                  (nearest_data self stations alt adapt_temp)).
Proof.
  intros Hst Hsz. eexists. split.
  { by apply resolve_point_resolved. }
  simpl. rewrite resolve_nearest_bins. split.
  { rewrite !map_map. simpl. apply map_id. }
  intros r (b & Hb & ->)%elem_of_resolved_rows. simpl.
  destruct (agg_first_spec
              (group time (nearest_data self stations alt adapt_temp) b))
    as (HSome & HNone & Hwhole).
  repeat split; try done; try apply HSome; try apply HNone.
  apply group_daily.
Qed.

(** C2, as the code has it.  In the weighted branch every output field
    is the rounding to one decimal place of the aggregated field of its
    bucket: the rounding comes after the aggregation.  In the nearest
    branch with [adapt_temp] the rows are rounded before the selection,
    which gives the rounding of the selected values all the same.  In the
    nearest branch without [adapt_temp] nothing is rounded: the output
    fields are the selected input values. *)
Theorem rounding_by_branch self method stations alt adapt_temp :
  _stations self <> [] -> size (_data self) <> 0%nat ->
  exists self',
    _resolve_point weighted_average self method stations alt adapt_temp
    = inr self' /\
    forall r, r ∈ rows (_data self') ->
      if String.eqb method "nearest" then
        if adapt_temp then
          data r =
          round_cells
            (agg_first
               (group time
                  (drop (adjust_temp id alt
                           (join elevation NaN stations
                                 (rows (_data self)))))
                  (time r)))
        else data r = agg_first (group time (rows (_data self)) (time r))
      else
        let g := group time_of
                   (weighted_data self stations alt adapt_temp) (time r) in
        data r =
        round_cells
          (set wdir (first (col wdir (drop g))) (weighted_average g).1).
Proof.
  intros Hst Hsz. eexists. split.
  { by apply resolve_point_resolved. }
  simpl. destruct (String.eqb method "nearest").
  - rewrite resolve_nearest_bins.
    intros r (b & Hb & ->)%elem_of_resolved_rows. simpl.
    destruct adapt_temp; [|done].
    unfold nearest_data. by rewrite group_round, agg_first_round.
  - rewrite resolve_weighted_bins.
    by intros r (b & Hb & ->)%elem_of_resolved_rows.
Qed.

(** The joined table of the weighted branch is the table of the object
    row by row: same timestamps, same wind directions. *)
Lemma weighted_data_wdir self stations alt adapt_temp (b : Z) :
  col wdir (drop (group time_of
                    (weighted_data self stations alt adapt_temp) b)) =
  col wdir (group time (rows (_data self)) b).
Proof.
  unfold weighted_data, join. destruct adapt_temp.
  - rewrite adjust_temp_map, map_map, group_map.
    unfold col, drop. rewrite !map_map. by apply map_ext.
  - rewrite group_map. unfold col, drop. rewrite !map_map.
    by apply map_ext.
Qed.

Lemma weighted_data_bins self stations alt adapt_temp :
  bins time_of (weighted_data self stations alt adapt_temp) =
  bins time (rows (_data self)).
Proof.
  unfold weighted_data, join. destruct adapt_temp.
  - by rewrite adjust_temp_map, map_map, bins_map.
  - by rewrite bins_map.
Qed.

(** C4, as the code has it.  In the weighted branch the wind direction
    of a bucket does not come from the weighted averaging, whatever
    [weighted_average] computes: it is the wind direction that
    [agg('first')] selects in the bucket of the input table, that is the
    one of the earliest row of the bucket that has a wind direction,
    merged into the aggregated table under the bucket label and rounded
    to one decimal place with the other fields.  In a table of daily
    timestamps the rows of a bucket are the rows of that day in table
    order. *)
Theorem weighted_wdir_first_present self method stations alt adapt_temp :
  method <> "nearest" ->
  _stations self <> [] -> size (_data self) <> 0%nat ->
  exists self',
    _resolve_point weighted_average self method stations alt adapt_temp
    = inr self' /\
    map time (rows (_data self')) = bins time (rows (_data self)) /\
    forall r, r ∈ rows (_data self') ->
      let g := group time (rows (_data self)) (time r) in
      get wdir (data r) = vround (get wdir (agg_first g)) /\
      (forall y,
          get wdir (data r) = Some y <->
          exists (i : nat) (r0 : row F) (x : F),
            g !! i = Some r0 /\ get wdir (data r0) = Some x /\
            y = fround1 x /\
            forall (j : nat) (r1 : row F),
              (j < i)%nat -> g !! j = Some r1 ->
              get wdir (data r1) = None) /\
      (get wdir (data r) = None <->
       forall r0, r0 ∈ g -> get wdir (data r0) = None) /\
      ((forall x, x ∈ rows (_data self) -> bucket (time x) = time x) ->
       g = filter (fun x => time x = time r) (rows (_data self))).
Proof.
  intros Hm Hst Hsz. eexists. split.
  { by apply resolve_point_resolved. }
  cbn [with_data _data rows]. apply String.eqb_neq in Hm. rewrite Hm.
  rewrite resolve_weighted_bins, weighted_data_bins. split.
  { rewrite !map_map. simpl. apply map_id. }
  intros r (b & Hb & ->)%elem_of_resolved_rows. cbv zeta. cbn [data time].
  rewrite get_round_cells, get_set_eq, weighted_data_wdir.
  rewrite <- get_agg_first.
  destruct (agg_first_spec (group time (rows (_data self)) b))
    as (HSome & HNone & _).
  split; [done|]. split; [|split].
  - intros y. destruct (get wdir (agg_first _)) as [x|] eqn:Hx; simpl.
    + apply HSome in Hx as (i & r0 & ? & ? & ?). split.
      * intros [= <-]. by exists i, r0, x.
      * intros (i' & r0' & x' & Hi' & Hx' & -> & Hlt').
        assert (get wdir (agg_first (group time (rows (_data self)) b))
                = Some x') as Hx''.
        { apply HSome. by exists i', r0'. }
        assert (get wdir (agg_first (group time (rows (_data self)) b))
                = Some x) as Hx'''.
        { apply HSome. by exists i, r0. }
        congruence.
    + split; [done|]. intros (i & r0 & x & Hi & Hx0 & _ & Hlt).
      assert (get wdir (agg_first (group time (rows (_data self)) b))
              = Some x) as Hx'.
      { apply HSome. by exists i, r0. }
      congruence.
  - rewrite <- HNone.
    by destruct (get wdir (agg_first _)).
  - apply group_daily.
Qed.

(** C7, as the code has it.  Point resolution raises no error of its
    own, [MetadataMissing] or other: it always returns, and a row whose
    station the stations table does not list is joined with a missing
    score and a missing elevation. *)
Theorem resolve_point_never_raises self method stations alt adapt_temp :
  (exists self',
      _resolve_point weighted_average self method stations alt adapt_temp
      = inr self') /\
  _resolve_point weighted_average self method stations alt adapt_temp
  <> inl MetadataMissing /\
  (forall r,
      r ∈ rows (_data self) -> stations !! station r = None ->
      (r, NaN) ∈ join elevation NaN stations (rows (_data self)) /\
      (r, Meta NaN NaN) ∈
        join id (Meta NaN NaN) stations (rows (_data self))).
Proof.
  split; [|split].
  - unfold _resolve_point. case_match; eauto.
  - unfold _resolve_point. case_match; discriminate.
  - intros r Hr Hnone. unfold join. rewrite !map_fmap.
    split; apply list_elem_of_fmap; exists r; by rewrite Hnone.
Qed.
End ResolverFacts.

(** ** Loading *)

Section MonadFacts.
Context {F : Type}.

Lemma bind_ret_l {A B : Type} (a : A) (k : A -> M F B) :
  bind (ret a) k = k a.
Proof. unfold bind, ret. by destruct (k a). Qed.

Lemma bind_ret_r {A : Type} (m : M F A) : bind m ret = m.
Proof.
  destruct m as [t [e|a]]; simpl; [done|]. by rewrite app_nil_r.
Qed.

(** Finishing a computation with a pure function changes its result
    only. *)
Lemma bind_ret_on_result {A B : Type} (m : M F A) (f : A -> B) :
  bind m (fun a => ret (f a)) = (trace m, on_result f (result m)).
Proof.
  destruct m as [t [e|a]]; simpl; [done|]. by rewrite app_nil_r.
Qed.
End MonadFacts.

Section LoaderFacts.
Context {F : Type} {Granularity : Type} (DAILY : Granularity).
Context (generate_endpoint_path : Granularity -> string -> bool -> string).
Context (get_local_file_path : string -> string -> string -> string).
Context (file_in_cache : string -> Z -> bool).
Context (read_pickle : string -> exn + DataFrame F).
Context (load_handler :
           string -> string -> list string -> list (string * string) ->
           list (string * list nat) -> exn + DataFrame F).
Context (validate_series : DataFrame F -> string -> exn + DataFrame F).
Context (processing_handler :
           list (list string) -> (string -> M F (DataFrame F)) -> Z -> Z ->
           M F (option (DataFrame F))).
Implicit Types (self : Daily F) (station : string) (df : DataFrame F).

Local Abbreviation path :=
  (cache_path DAILY generate_endpoint_path get_local_file_path).
Local Abbreviation load_table' :=
  (load_table DAILY generate_endpoint_path get_local_file_path
              file_in_cache read_pickle load_handler validate_series).
Local Abbreviation _load' :=
  (_load DAILY generate_endpoint_path get_local_file_path file_in_cache
         read_pickle load_handler validate_series).
Local Abbreviation _get_data' :=
  (_get_data DAILY generate_endpoint_path get_local_file_path file_in_cache
             read_pickle load_handler validate_series processing_handler).

(** [_load] performs the events of its first half and filters what that
    half returns. *)
Lemma load_eq self station :
  _load' self station =
  (trace (load_table' self station),
   on_result (filter_period self) (result (load_table' self station))).
Proof. unfold _load. apply bind_ret_on_result. Qed.

Lemma load_table_hit self station :
  0 < max_age self ->
  file_in_cache (path self station) (max_age self) = true ->
  load_table' self station =
  ([CacheLookup (path self station) (max_age self);
    ReadPickle (path self station)],
   read_pickle (path self station)).
Proof.
  intros Hage Hhit. unfold load_table, cache_path in *.
  apply Z.ltb_lt in Hage. rewrite Hage. unfold call, bind. simpl.
  by rewrite Hhit.
Qed.

Lemma filter_period_both self df (start end_ : Z) :
  _start self = Some start -> _end self = Some end_ ->
  filter_period self df = loc_between start end_ df.
Proof. unfold filter_period. by intros -> ->. Qed.

Lemma filter_period_one self df :
  _start self = None \/ _end self = None -> filter_period self df = df.
Proof.
  unfold filter_period. intros [->| ->]; [done|].
  by destruct (_start self).
Qed.

(** C5. With [max_age > 0] and a cache entry that is present and younger
    than [max_age], the load of the station looks the entry up, reads it
    and uses the table as it is (up to the filter on the period): the
    cache read is its only other event, so it performs no remote fetch,
    no validation and no cache write. *)
Theorem load_cache_hit self station :
  0 < max_age self ->
  file_in_cache (path self station) (max_age self) = true ->
  trace (_load' self station) =
    [CacheLookup (path self station) (max_age self);
     ReadPickle (path self station)] /\
  result (_load' self station) =
    on_result (filter_period self) (read_pickle (path self station)) /\
  forall e, e ∈ trace (_load' self station) -> fetches_or_writes e = false.
Proof.
  intros Hage Hhit. rewrite load_eq, (load_table_hit _ _ Hage Hhit).
  unfold trace, result. simpl. split; [done|]. split; [done|].
  intros e He. repeat (apply elem_of_cons in He as [->|He]; [done|]).
  by apply elem_of_nil in He.
Qed.

(** C6. When both dates of the period are given, the load returns, if
    the table was obtained, exactly the rows of that table whose time
    lies in the closed interval from start to end, in their order; the
    test reads the time of a row only, and a row that is kept is kept
    whole, station included. *)
Theorem load_filters_period self station (start end_ : Z) :
  _start self = Some start -> _end self = Some end_ ->
  trace (_load' self station) = trace (load_table' self station) /\
  result (_load' self station) =
    on_result (loc_between start end_) (result (load_table' self station)) /\
  forall df,
    columns (loc_between start end_ df) = columns df /\
    rows (loc_between start end_ df) =
      filter (fun r => start <= time r /\ time r <= end_) (rows df) /\
    forall r,
      r ∈ rows (loc_between start end_ df) <->
      r ∈ rows df /\ start <= time r /\ time r <= end_.
Proof.
  intros Hs He. rewrite load_eq. unfold trace, result. simpl.
  split; [done|]. split.
  - destruct (load_table' self station) as [t [e|df]]; simpl; [done|].
    by rewrite (filter_period_both _ _ _ _ Hs He).
  - intros df. split; [done|]. split; [done|]. intros r. simpl.
    rewrite list_elem_of_filter. tauto.
Qed.

(** C10. The period filter applies only when both the start and the end
    date are set: then the result is the filtered table; when one of
    them is missing, the load is the first half alone and returns the
    table unfiltered. *)
Theorem load_filters_only_with_both_dates self station :
  (_start self = None \/ _end self = None ->
   _load' self station = load_table' self station) /\
  (forall start end_ : Z,
      _start self = Some start -> _end self = Some end_ ->
      result (_load' self station) =
      on_result (loc_between start end_)
                (result (load_table' self station))).
Proof.
  split.
  - intros Hone. rewrite load_eq.
    destruct (load_table' self station) as [t [e|df]]; simpl; [done|].
    by rewrite (filter_period_one _ _ Hone).
  - intros start end_ Hs He. rewrite load_eq. unfold result. simpl.
    destruct (load_table' self station) as [t [e|df]]; simpl; [done|].
    by rewrite (filter_period_both _ _ _ _ Hs He).
Qed.

(** C8, as the code has it.  With no station id, the acquisition returns
    a table, never [None], without any load: the table has no rows and
    the ten meteorological columns by name; the columns do not carry the
    types of the type map, each has the default dtype [object]. *)
Theorem get_data_no_stations self :
  _stations self = [] ->
  exists df,
    _get_data DAILY generate_endpoint_path get_local_file_path file_in_cache
              read_pickle load_handler validate_series processing_handler
              self
    = ret (Some df) /\
    rows df = [] /\
    map fst (columns df) =
      ["tavg"; "tmin"; "tmax"; "prcp"; "snow"; "wdir"; "wspd"; "wpgt";
       "pres"; "tsun"] /\
    Forall (fun c => c.2 = "object") (columns df).
Proof.
  intros Hst. eexists. unfold _get_data. rewrite Hst. simpl.
  split; [reflexivity|]. split; [done|]. split; [done|].
  repeat constructor.
Qed.
End LoaderFacts.

(** ** The temperature adjustment, and its example *)

(** C3. With [adapt_temp], every row of a station of elevation [E] gets
    each of its three temperature fields [T] replaced by
    [T + (2/3) * ((E - alt) / 100)] when the field is present, and keeps
    it missing when it is missing; nothing else of the row changes.  This
    holds of [adjust_temp] on any joined table, and of the tables that the
    two branches of the resolver group when [adapt_temp] is set (in the
    nearest branch the adjusted values are rounded at once).  With
    elevation 500, altitude 100 and an average temperature of 10.0, the
    resolved average temperature is 12.7 after the final rounding, in both
    methods, in exact arithmetic and in binary64. *)
Theorem adjust_temp_lapse_rate :
  (forall (F : Type) (Flt : Float F) (H : Type) (elev : H -> value F)
          (alt : Z) (tbl : @joined F H) (i : nat) (x : row F * H) (E : F),
      tbl !! i = Some x -> elev x.2 = Some E ->
      exists y,
        adjust_temp elev alt tbl !! i = Some y /\
        station y.1 = station x.1 /\ time y.1 = time x.1 /\ y.2 = x.2 /\
        forall c,
          get c (data y.1) = adjusted_value c (get c (data x.1)) E alt) /\
  (forall (F : Type) (Flt : Float F) (self : Daily F)
          (stations : gmap string (meta F)) (alt : Z) (i : nat) (r : row F)
          (m : meta F) (E : F),
      rows (_data self) !! i = Some r ->
      stations !! station r = Some m -> elevation m = Some E ->
      (exists y,
          weighted_data self stations alt true !! i = Some y /\
          forall c,
            get c (data y.1) = adjusted_value c (get c (data r)) E alt) /\
      (exists r',
          nearest_data self stations alt true !! i = Some r' /\
          forall c,
            get c (data r') =
            vround (adjusted_value c (get c (data r)) E alt))) /\
  (forall (F : Type) (Flt : Float F) (T E : F) (alt : Z),
      adjusted_value tavg (Some T) E alt =
        Some (fadd T (fmul (fdiv (of_int 2) (of_int 3))
                           (fdiv (fsub E (of_int alt)) (of_int 100)))) /\
      adjusted_value tmin (Some T) E alt =
        adjusted_value tavg (Some T) E alt /\
      adjusted_value tmax (Some T) E alt =
        adjusted_value tavg (Some T) E alt /\
      adjusted_value tavg None E alt = None /\
      adjusted_value tmin None E alt = None /\
      adjusted_value tmax None E alt = None) /\
  (forall method, method = "nearest" \/ method = "weighted" ->
      exists self',
        _resolve_point weighted_average_spec Sample.one_station method
                       Sample.stations 100 true = inr self' /\
        map (fun r => get tavg (data r)) (rows (_data self')) =
          [Some (127 # 10)%Q]) /\
  (forall method, method = "nearest" \/ method = "weighted" ->
      exists self',
        Binary64.resolve_point Binary64.one_station method Binary64.stations
                               100 true = inr self' /\
        map (fun r => get tavg (data r)) (rows (_data self')) =
          [Some (PrimFloat.div (Binary64.of_Z 127) (Binary64.of_Z 10))]).
Proof.
  split; [|split; [|split; [|split]]].
  - intros F Flt H elev alt tbl i x E Hi HE.
    exists (corrected elev alt x). rewrite adjust_temp_map, map_fmap.
    unfold joined in *. rewrite list_lookup_fmap, Hi. simpl. repeat split.
    intros c. by rewrite <- (get_corrected_elevation elev alt c x E HE).
  - intros F Flt self stations alt i r m E Hr Hm HE. split.
    + destruct (weighted_data_adapt self stations alt i r m E Hr Hm HE)
        as (y & Hy & _ & _ & _ & Hc). by exists y.
    + destruct (nearest_data_adapt self stations alt i r m E Hr Hm HE)
        as (r' & Hr' & _ & _ & Hc). by exists r'.
  - intros F Flt T E alt. by repeat split.
  - intros method [-> | ->]; eexists; (split; [vm_compute; reflexivity|]);
      vm_compute; reflexivity.
  - intros method [-> | ->]; eexists; (split; [vm_compute; reflexivity|]);
      vm_compute; reflexivity.
Qed.

Lemma adjust_temp_lapse_rate_example :
  exists y,
    adjust_temp id 100 [(Sample.one_row, Some 500%Q)] !! 0%nat = Some y /\
    get tavg (data y.1) = adjusted_value tavg (Some 10%Q) 500%Q 100 /\
    get prcp (data y.1) = None.
Proof.
  destruct (proj1 adjust_temp_lapse_rate Q Q_Float (value Q) id 100
              [(Sample.one_row, Some 500%Q)] 0%nat
              (Sample.one_row, Some 500%Q) 500%Q eq_refl eq_refl)
    as (y & Hy & _ & _ & _ & Hc).
  exists y. split; [exact Hy|]. split.
  - exact (Hc tavg).
  - exact (Hc prcp).
Defined.

(** ** The claims of the specification that the code does not meet *)

(** C1 as the specification states it fails: with the nearer station
    missing the average temperature of a day, the nearest method takes
    the average temperature of the farther station and the minimum
    temperature of the nearer one. *)
Lemma nearest_mixes_stations :
  exists self' r,
    _resolve_point weighted_average_spec Sample.two_stations "nearest"
                   Sample.stations 100 false = inr self' /\
    rows (_data self') = [r] /\
    highest_scored Sample.stations
      (group time (rows (_data Sample.two_stations)) (time r))
    = Some Sample.near_row /\
    get tavg (data Sample.near_row) = None /\
    get tavg (data r) = Some (21 # 4)%Q /\
    get tavg (data Sample.far_row) = Some (21 # 4)%Q /\
    get tmin (data r) = Some 1%Q /\
    get tmin (data Sample.near_row) = Some 1%Q.
Proof.
  do 2 eexists. split; [vm_compute; reflexivity|].
  split; [vm_compute; reflexivity|].
  repeat split; vm_compute; reflexivity.
Qed.

Lemma nearest_first_present_example :
  _stations Sample.two_stations <> [] /\
  size (_data Sample.two_stations) <> 0%nat /\
  exists self',
    _resolve_point weighted_average_spec Sample.two_stations "nearest"
                   Sample.stations 100 true = inr self' /\
    map time (rows (_data self')) =
      bins time (nearest_data Sample.two_stations Sample.stations 100 true).
Proof.
  assert (_stations Sample.two_stations <> []) as H1 by discriminate.
  assert (size (_data Sample.two_stations) <> 0%nat) as H2 by discriminate.
  split; [exact H1|]. split; [exact H2|].
  destruct (nearest_first_present weighted_average_spec Sample.two_stations
              Sample.stations 100 true H1 H2) as (s & Hs & Ht & _).
  exists s. split; [exact Hs | exact Ht].
Defined.

(** C2 as the specification states it fails: the nearest method without
    [adapt_temp] hands the value 5.25 through, which rounding to one
    decimal place would turn into 5.2. *)
Lemma nearest_output_not_rounded :
  exists self' r,
    _resolve_point weighted_average_spec Sample.two_stations "nearest"
                   Sample.stations 100 false = inr self' /\
    rows (_data self') = [r] /\
    get tavg (data r) = Some (21 # 4)%Q /\
    vround (get tavg (data r)) = Some (26 # 5)%Q.
Proof.
  do 2 eexists. split; [vm_compute; reflexivity|].
  split; [vm_compute; reflexivity|].
  split; vm_compute; reflexivity.
Qed.

Lemma rounding_by_branch_example :
  _stations Sample.two_stations <> [] /\
  size (_data Sample.two_stations) <> 0%nat /\
  exists self',
    _resolve_point weighted_average_spec Sample.two_stations "weighted"
                   Sample.stations 100 false = inr self' /\
    forall r, r ∈ rows (_data self') ->
      data r =
      round_cells
        (set wdir
           (first (col wdir (drop (group time_of
              (weighted_data Sample.two_stations Sample.stations 100 false)
              (time r)))))
           (weighted_average_spec
              (group time_of
                 (weighted_data Sample.two_stations Sample.stations 100 false)
                 (time r))).1).
Proof.
  assert (_stations Sample.two_stations <> []) as H1 by discriminate.
  assert (size (_data Sample.two_stations) <> 0%nat) as H2 by discriminate.
  split; [exact H1|]. split; [exact H2|].
  destruct (rounding_by_branch weighted_average_spec Sample.two_stations
              "weighted" Sample.stations 100 false H1 H2) as (s & Hs & Hr).
  exists s. split; [exact Hs | exact Hr].
Defined.

(** C4 as the specification states it fails: with the nearer station
    missing the wind direction of a day, the weighted method takes the
    wind direction of the farther station. *)
Lemma weighted_wdir_skips_missing :
  exists self' r,
    _resolve_point weighted_average_spec Sample.two_stations "weighted"
                   Sample.stations 100 false = inr self' /\
    rows (_data self') = [r] /\
    highest_scored Sample.stations
      (group time (rows (_data Sample.two_stations)) (time r))
    = Some Sample.near_row /\
    get wdir (data Sample.near_row) = None /\
    get wdir (data r) = Some 180%Q /\
    get wdir (data Sample.far_row) = Some 180%Q.
Proof.
  do 2 eexists. split; [vm_compute; reflexivity|].
  split; [vm_compute; reflexivity|].
  repeat split; vm_compute; reflexivity.
Qed.

Lemma weighted_wdir_first_present_example :
  "weighted" <> "nearest" /\
  _stations Sample.two_stations <> [] /\
  size (_data Sample.two_stations) <> 0%nat /\
  exists self',
    _resolve_point weighted_average_spec Sample.two_stations "weighted"
                   Sample.stations 100 true = inr self' /\
    forall r, r ∈ rows (_data self') ->
      get wdir (data r) =
      vround (get wdir (agg_first
                          (group time (rows (_data Sample.two_stations))
                                 (time r)))).
Proof.
  assert ("weighted" <> "nearest") as H0 by discriminate.
  assert (_stations Sample.two_stations <> []) as H1 by discriminate.
  assert (size (_data Sample.two_stations) <> 0%nat) as H2 by discriminate.
  split; [exact H0|]. split; [exact H1|]. split; [exact H2|].
  destruct (weighted_wdir_first_present weighted_average_spec
              Sample.two_stations "weighted" Sample.stations 100 true
              H0 H1 H2) as (s & Hs & _ & Hr).
  exists s. split; [exact Hs|]. intros r Hin. exact (proj1 (Hr r Hin)).
Defined.

(** C7 as the specification states it fails: a station that the stations
    table does not list is resolved without any error. *)
Lemma missing_metadata_resolves :
  "10635" ∈ _stations Sample.two_stations /\
  Sample.stations_partial !! "10635" = None /\
  (exists self',
      _resolve_point weighted_average_spec Sample.two_stations "weighted"
                     Sample.stations_partial 100 true = inr self' /\
      map (fun r => get tmin (data r)) (rows (_data self')) =
        [Some (37 # 10)%Q]) /\
  (exists self',
      _resolve_point weighted_average_spec Sample.two_stations "nearest"
                     Sample.stations_partial 100 true = inr self').
Proof.
  split; [by right; left|]. split; [vm_compute; reflexivity|].
  split; eexists; [split|]; vm_compute; reflexivity.
Qed.

Lemma resolve_point_never_raises_example :
  Sample.far_row ∈ rows (_data Sample.two_stations) /\
  Sample.stations_partial !! station Sample.far_row = None /\
  (Sample.far_row, Meta NaN NaN) ∈
    join id (Meta NaN NaN) Sample.stations_partial
         (rows (_data Sample.two_stations)).
Proof.
  assert (Sample.far_row ∈ rows (_data Sample.two_stations)) as H1
    by (right; left).
  assert (Sample.stations_partial !! station Sample.far_row = None) as H2
    by reflexivity.
  split; [exact H1|]. split; [exact H2|].
  exact (proj2 (proj2 (proj2 (resolve_point_never_raises
                                weighted_average_spec Sample.two_stations
                                "weighted" Sample.stations_partial 100 true))
                      Sample.far_row H1 H2)).
Defined.

(** C8 as the specification states it fails: the empty table has the ten
    column names, but its columns are not typed as the type map says. *)
Lemma empty_table_untyped :
  exists df,
    Sample.get_data Sample.no_stations = ([], inr (Some df)) /\
    rows df = [] /\
    map fst (columns df) = map fst _types /\
    columns df !! 0%nat = Some ("tavg", "object") /\
    _types !! 0%nat = Some ("tavg", "float64").
Proof.
  eexists. split; [vm_compute; reflexivity|]. repeat split.
Qed.

Lemma get_data_no_stations_example :
  _stations Sample.no_stations = [] /\
  exists df,
    Sample.get_data Sample.no_stations = ([], inr (Some df)) /\
    rows df = [].
Proof.
  split; [reflexivity|].
  destruct (get_data_no_stations tt Sample.generate_endpoint_path
              Sample.get_local_file_path Sample.file_in_cache
              Sample.read_pickle Sample.load_handler Sample.validate_series
              Sample.processing_handler Sample.no_stations eq_refl)
    as (df & Hdf & Hrows & _).
  exists df. split; [exact Hdf | exact Hrows].
Defined.

(** ** Instances of the confirmed claims *)

Lemma resolve_point_noop_example :
  (_stations Sample.no_stations = [] \/
   size (_data Sample.no_stations) = 0%nat) /\
  _resolve_point weighted_average_spec Sample.no_stations "nearest"
                 Sample.stations 100 true = inr Sample.no_stations.
Proof.
  split; [left; reflexivity|].
  apply (resolve_point_noop weighted_average_spec Sample.no_stations
           "nearest" Sample.stations 100 true).
  left. reflexivity.
Defined.

Lemma load_cache_hit_example :
  0 < max_age Sample.two_days /\
  Sample.file_in_cache (Sample.path Sample.two_days "10637")
                       (max_age Sample.two_days) = true /\
  trace (Sample.load Sample.two_days "10637") =
    [CacheLookup (Sample.path Sample.two_days "10637") 86400;
     ReadPickle (Sample.path Sample.two_days "10637")].
Proof.
  assert (0 < max_age Sample.two_days) as H1 by reflexivity.
  split; [exact H1|]. split; [reflexivity|].
  exact (proj1 (load_cache_hit tt Sample.generate_endpoint_path
                  Sample.get_local_file_path Sample.file_in_cache
                  Sample.read_pickle Sample.load_handler
                  Sample.validate_series Sample.two_days "10637"
                  H1 eq_refl)).
Defined.

Lemma load_filters_period_example :
  _start Sample.two_days = Some 86400 /\
  _end Sample.two_days = Some 172800 /\
  result (Sample.load Sample.two_days "10637") =
    on_result (loc_between 86400 172800)
              (result (Sample.table Sample.two_days "10637")).
Proof.
  split; [reflexivity|]. split; [reflexivity|].
  exact (proj1 (proj2 (load_filters_period tt Sample.generate_endpoint_path
                         Sample.get_local_file_path Sample.file_in_cache
                         Sample.read_pickle Sample.load_handler
                         Sample.validate_series Sample.two_days "10637"
                         86400 172800 eq_refl eq_refl))).
Defined.

Lemma load_filters_only_with_both_dates_example :
  (_start Sample.open_ended = None \/ _end Sample.open_ended = None) /\
  Sample.load Sample.open_ended "10637" =
    Sample.table Sample.open_ended "10637".
Proof.
  split; [right; reflexivity|].
  apply (proj1 (load_filters_only_with_both_dates tt
                  Sample.generate_endpoint_path Sample.get_local_file_path
                  Sample.file_in_cache Sample.read_pickle
                  Sample.load_handler Sample.validate_series
                  Sample.open_ended "10637")).
  right. reflexivity.
Defined.

(** * More of the class *)

(** ** Time buckets *)

Lemma bucket_le (t : Z) : bucket t <= t.
Proof. unfold bucket, _freq. apply Z.mul_div_le. lia. Qed.

Lemma bucket_mono (a b : Z) : a <= b -> bucket a <= bucket b.
Proof.
  intros Hab. unfold bucket, _freq.
  apply Z.mul_le_mono_nonneg_l; [lia|]. apply Z.div_le_mono; lia.
Qed.

Lemma bucket_bucket (t : Z) : bucket (bucket t) = bucket t.
Proof.
  unfold bucket, _freq. rewrite (Z.mul_comm 86400 (t / 86400)).
  rewrite Z.div_mul by lia. lia.
Qed.

Lemma foldr_min_spec (b : Z) (bs : list Z) :
  foldr Z.min b bs ∈ b :: bs /\
  forall x, x ∈ b :: bs -> foldr Z.min b bs <= x.
Proof.
  induction bs as [|c bs [IHin IHle]]; simpl.
  - split; [by left|]. intros x Hx. apply list_elem_of_singleton in Hx. lia.
  - split.
    + destruct (Z.min_spec c (foldr Z.min b bs)) as [[_ ->]|[_ ->]].
      * right. by left.
      * apply elem_of_cons in IHin as [->|Hin]; [by left|].
        right. by right.
    + intros x Hx. apply elem_of_cons in Hx as [->|Hx].
      * etrans; [apply Z.le_min_r|]. apply IHle. by left.
      * apply elem_of_cons in Hx as [->|Hx]; [apply Z.le_min_l|].
        etrans; [apply Z.le_min_r|]. apply IHle. by right.
Qed.

Lemma foldr_max_spec (b : Z) (bs : list Z) :
  foldr Z.max b bs ∈ b :: bs /\
  forall x, x ∈ b :: bs -> x <= foldr Z.max b bs.
Proof.
  induction bs as [|c bs [IHin IHle]]; simpl.
  - split; [by left|]. intros x Hx. apply list_elem_of_singleton in Hx. lia.
  - split.
    + destruct (Z.max_spec c (foldr Z.max b bs)) as [[_ ->]|[_ ->]].
      * apply elem_of_cons in IHin as [->|Hin]; [by left|].
        right. by right.
      * right. by left.
    + intros x Hx. apply elem_of_cons in Hx as [->|Hx].
      * etrans; [|apply Z.le_max_r]. apply IHle. by left.
      * apply elem_of_cons in Hx as [->|Hx]; [apply Z.le_max_l|].
        etrans; [|apply Z.le_max_r]. apply IHle. by right.
Qed.

Section BinFacts.
Context {A : Type} (t : A -> Z).
Implicit Types (l : list A) (x : A).

(** The bucket labels of a table that has rows: the labels of the days
    from the day of its earliest row to the day of its latest row. *)
Lemma bins_range l :
  l <> [] ->
  exists lo hi : Z,
    (exists x, x ∈ l /\ bucket (t x) = lo) /\
    (exists x, x ∈ l /\ bucket (t x) = hi) /\
    (forall x, x ∈ l -> lo <= bucket (t x) <= hi) /\
    bins t l =
      map (fun i => lo + _freq * Z.of_nat i)
          (seq 0 (S (Z.to_nat ((hi - lo) / _freq)))).
Proof.
  intros Hne. unfold bins. destruct l as [|x0 l]; [done|]. simpl.
  set (b := bucket (t x0)). set (bs := map (fun x => bucket (t x)) l).
  destruct (foldr_min_spec b bs) as [Hmin Hle].
  destruct (foldr_max_spec b bs) as [Hmax Hge].
  assert (forall y, y ∈ b :: bs <-> exists x, x ∈ x0 :: l /\ bucket (t x) = y)
    as Hmem.
  { intros y. subst b bs.
    change (bucket (t x0) :: map (fun x => bucket (t x)) l)
      with (map (fun x => bucket (t x)) (x0 :: l)).
    rewrite map_fmap, list_elem_of_fmap. split.
    - intros (x & -> & Hx). eauto.
    - intros (x & Hx & <-). eauto. }
  exists (foldr Z.min b bs), (foldr Z.max b bs).
  split; [by apply Hmem|]. split; [by apply Hmem|]. split; [|done].
  intros x Hx. split; [apply Hle | apply Hge]; apply Hmem; eauto.
Qed.

(** No row is lost: the bucket of every row is one of the labels. *)
Lemma elem_of_bins l x : x ∈ l -> bucket (t x) ∈ bins t l.
Proof.
  intros Hx. destruct (bins_range l) as (lo & hi & Hlo & Hhi & Hbd & ->).
  { intros ->. by apply elem_of_nil in Hx. }
  destruct Hlo as (xl & _ & Hxl). destruct (Hbd x Hx) as [H1 H2].
  rewrite map_fmap, list_elem_of_fmap.
  exists (Z.to_nat ((bucket (t x) - lo) / _freq)). split.
  - rewrite Z2Nat.id by (apply Z.div_pos; unfold _freq; lia).
    subst lo. unfold bucket, _freq in *.
    replace (86400 * (t x / 86400) - 86400 * (t xl / 86400))
      with ((t x / 86400 - t xl / 86400) * 86400) by lia.
    rewrite Z.div_mul by lia. lia.
  - apply list_elem_of_In, in_seq. split; [lia|]. simpl.
    apply Nat.lt_succ_r, Z2Nat.inj_le.
    + apply Z.div_pos; unfold _freq; lia.
    + apply Z.div_pos; unfold _freq; lia.
    + apply Z.div_le_mono; unfold _freq; lia.
Qed.

(** The labels are all different, and every label is the start of a day. *)
Lemma bins_NoDup l : NoDup (bins t l).
Proof.
  destruct l as [|x0 l]; [constructor|].
  destruct (bins_range (x0 :: l)) as (lo & hi & _ & _ & _ & ->); [done|].
  rewrite map_fmap. apply NoDup_fmap_2_strong; [|apply NoDup_seq].
  intros i j _ _ Hij. unfold _freq in Hij. lia.
Qed.

Lemma bins_aligned l (b : Z) : b ∈ bins t l -> bucket b = b.
Proof.
  destruct l as [|x0 l]; [by intros ?%elem_of_nil|].
  destruct (bins_range (x0 :: l)) as (lo & hi & Hlo & _ & _ & ->); [done|].
  destruct Hlo as (xl & _ & <-).
  rewrite map_fmap, list_elem_of_fmap. intros (i & -> & _).
  unfold bucket, _freq.
  replace (86400 * (t xl / 86400) + 86400 * Z.of_nat i)
    with ((t xl / 86400 + Z.of_nat i) * 86400) by lia.
  rewrite Z.div_mul by lia. lia.
Qed.
End BinFacts.

(** ** The resolved series *)

Section SeriesFacts.
Context {F : Type} `{Flt : Float F}.
Context (weighted_average : @joined F (meta F) -> cells F * meta F).
Implicit Types (self : Daily F) (stations : gmap string (meta F)).
Implicit Types (method : string) (alt : Z) (adapt_temp : bool).

Lemma size_rows (df : DataFrame F) : size df <> 0%nat -> rows df <> [].
Proof. unfold size. intros Hsz Hr. by rewrite Hr in Hsz. Qed.

(** The rows that the nearest branch groups are the rows of the table, in
    order, each with its station and its time. *)
Lemma nearest_data_keys self stations alt adapt_temp :
  map (fun r => (station r, time r))
      (nearest_data self stations alt adapt_temp) =
  map (fun r => (station r, time r)) (rows (_data self)).
Proof.
  rewrite nearest_data_rows. destruct adapt_temp; [|done].
  unfold join. rewrite !map_map. by apply map_ext.
Qed.

Lemma nearest_data_bins self stations alt adapt_temp :
  bins time (nearest_data self stations alt adapt_temp) =
  bins time (rows (_data self)).
Proof.
  rewrite nearest_data_rows. destruct adapt_temp; [|done].
  unfold join. by rewrite map_map, bins_map.
Qed.


(** In either branch, the times of the resolved rows are the bucket labels
    of the table. *)
Lemma resolved_times self method stations alt adapt_temp :
  _stations self <> [] -> size (_data self) <> 0%nat ->
  exists self',
    _resolve_point weighted_average self method stations alt adapt_temp
    = inr self' /\
    self' = with_data self (_data self') ["XXXXX"] /\
    columns (_data self') = columns (_data self) /\
    map time (rows (_data self')) = bins time (rows (_data self)) /\
    forall r, r ∈ rows (_data self') -> station r = "XXXXX".
Proof.
  intros Hst Hsz. eexists. split.
  { by apply resolve_point_resolved. }
  split; [done|]. split; [done|]. cbn [with_data _data rows].
  destruct (String.eqb method "nearest").
  - rewrite resolve_nearest_bins, nearest_data_bins. split.
    + rewrite !map_map. simpl. apply map_id.
    + by intros r (b & _ & ->)%elem_of_resolved_rows.
  - rewrite resolve_weighted_bins, weighted_data_bins. split.
    + rewrite !map_map. simpl. apply map_id.
    + by intros r (b & _ & ->)%elem_of_resolved_rows.
Qed.

(** X1. Past the guard, whatever the method, the resolved series is under
    the single station id [XXXXX], its table keeps the columns, and its
    rows are one per day, in order, from the day of the earliest row of the
    input table to the day of its latest row, each at the start of its
    day: no day in between is left out. *)
Theorem resolved_series_days self method stations alt adapt_temp :
  _stations self <> [] -> size (_data self) <> 0%nat ->
  exists (self' : Daily F) (lo hi : Z),
    _resolve_point weighted_average self method stations alt adapt_temp
    = inr self' /\
    _stations self' = ["XXXXX"] /\
    (forall r, r ∈ rows (_data self') -> station r = "XXXXX") /\
    columns (_data self') = columns (_data self) /\
    (exists r, r ∈ rows (_data self) /\ bucket (time r) = lo) /\
    (exists r, r ∈ rows (_data self) /\ bucket (time r) = hi) /\
    (forall r, r ∈ rows (_data self) -> lo <= bucket (time r) <= hi) /\
    map time (rows (_data self')) =
      map (fun i => lo + 86400 * Z.of_nat i)
          (seq 0 (S (Z.to_nat ((hi - lo) / 86400)))).
Proof.
  intros Hst Hsz.
  destruct (resolved_times self method stations alt adapt_temp Hst Hsz)
    as (self' & Hres & Hself & Hcols & Htimes & Hxs).
  destruct (bins_range time (rows (_data self)) (size_rows _ Hsz))
    as (lo & hi & Hlo & Hhi & Hbd & Hbins).
  exists self', lo, hi. split; [done|]. split.
  { by rewrite Hself. }
  split; [done|]. split; [done|]. split; [done|]. split; [done|].
  split; [done|]. by rewrite Htimes, Hbins.
Qed.

(** X2. In the resolved series no key occurs twice, every row is at the
    start of a day, and the day of every row of the input table has its
    row: resolution loses no day. *)
Theorem resolved_series_covers self method stations alt adapt_temp :
  _stations self <> [] -> size (_data self) <> 0%nat ->
  exists self',
    _resolve_point weighted_average self method stations alt adapt_temp
    = inr self' /\
    NoDup (map (fun r => (station r, time r)) (rows (_data self'))) /\
    (forall r', r' ∈ rows (_data self') -> bucket (time r') = time r') /\
    (forall r, r ∈ rows (_data self) ->
       exists r', r' ∈ rows (_data self') /\ time r' = bucket (time r)).
Proof.
  intros Hst Hsz.
  destruct (resolved_times self method stations alt adapt_temp Hst Hsz)
    as (self' & Hres & _ & _ & Htimes & Hxs).
  exists self'. split; [done|].
  assert (forall b, b ∈ bins time (rows (_data self)) <->
                    exists r', r' ∈ rows (_data self') /\ time r' = b) as Hb.
  { intros b. rewrite <- Htimes, map_fmap, list_elem_of_fmap. split.
    - intros (r' & -> & Hr'). eauto.
    - intros (r' & Hr' & <-). eauto. }
  split; [|split].
  - assert (NoDup (map time (rows (_data self')))) as Hnd.
    { rewrite Htimes. apply bins_NoDup. }
    rewrite map_fmap in *. apply NoDup_fmap_2_strong.
    + intros x y Hx Hy [= _ Hxy].
      apply (NoDup_fmap_1 time) in Hnd as Hnd'.
      destruct (list_elem_of_lookup_1 _ _ Hx) as [i Hi].
      destruct (list_elem_of_lookup_1 _ _ Hy) as [j Hj].
      assert (i = j) as ->; [|congruence].
      eapply (NoDup_lookup _ i j (time x) Hnd);
        rewrite list_lookup_fmap; [by rewrite Hi|by rewrite Hj, Hxy].
    + by apply (NoDup_fmap_1 time).
  - intros r' Hr'. apply (bins_aligned time (rows (_data self))).
    apply Hb. eauto.
  - intros r Hr. apply Hb. by apply elem_of_bins.
Qed.


(** X4. Any method other than [nearest] is the weighted method: a
    misspelt method name is not refused, it resolves as [weighted]. *)
Theorem resolve_point_other_methods self stations alt adapt_temp
    (method method' : string) :
  method <> "nearest" -> method' <> "nearest" ->
  _resolve_point weighted_average self method stations alt adapt_temp =
  _resolve_point weighted_average self method' stations alt adapt_temp.
Proof.
  intros H1%String.eqb_neq H2%String.eqb_neq. unfold _resolve_point.
  by rewrite H1, H2.
Qed.

(** X5. With [adapt_temp], a row of a station that the stations table does
    not list, or lists without an elevation, loses its three temperatures
    in either branch: they enter the grouping as missing values, and the
    other fields of the row are kept (rounded, in the nearest branch). *)
Theorem adapt_temp_without_elevation self stations alt (i : nat)
    (r : row F) :
  rows (_data self) !! i = Some r ->
  (stations !! station r = None \/
   exists m, stations !! station r = Some m /\ elevation m = None) ->
  (exists y,
      weighted_data self stations alt true !! i = Some y /\
      forall c, get c (data y.1) =
                if temperature c then None else get c (data r)) /\
  (exists r',
      nearest_data self stations alt true !! i = Some r' /\
      forall c, get c (data r') =
                if temperature c then None else vround (get c (data r))).
Proof.
  intros Hr Hno.
  assert (exists m : meta F,
             match stations !! station r with
             | Some m' => m'
             | None => Meta NaN NaN
             end = m /\ elevation m = None) as (m & Hm & HE).
  { destruct Hno as [-> | (m & -> & HE)]; eauto. }
  assert (forall (H : Type) (elev : H -> value F) (h : H) c,
             elev h = None ->
             get c (data (corrected elev alt (r, h)).1) =
             if temperature c then None else get c (data r)) as Hcorr.
  { intros H elev h c Hh. rewrite get_corrected. simpl.
    destruct (temperature c); [|done].
    unfold lapse. simpl. rewrite Hh. by destruct (get c (data r)). }
  split.
  - exists (corrected elevation alt (r, m)). split.
    + unfold weighted_data, join.
      rewrite adjust_temp_map, map_map, map_fmap.
      unfold joined. rewrite list_lookup_fmap, Hr. simpl. by rewrite Hm.
    + intros c. by apply Hcorr.
  - exists (round_row (corrected id alt (r, elevation m)).1). split.
    + rewrite nearest_data_rows. unfold join.
      rewrite map_map, map_fmap, list_lookup_fmap, Hr. simpl.
      destruct Hno as [Hn | (m' & Hn & HE')]; rewrite Hn in *; simpl in *;
        subst; simpl; by rewrite ?HE'.
    + intros c. unfold round_row. cbn [data]. rewrite get_round_cells.
      rewrite (Hcorr _ id (elevation m) c HE).
      by destruct (temperature c).
Qed.
End SeriesFacts.

(** ** [expected_rows] *)

Section RowsFacts.
Context {F : Type} `{Flt : Float F}.
Context (weighted_average : @joined F (meta F) -> cells F * meta F).
Implicit Types (self : Daily F) (stations : gmap string (meta F)).

(** X6. [expected_rows] needs both dates: without one of them it raises
    [TypeError].  With both it counts the days that the period has begun,
    whatever the order of the dates: the count is at least 1 exactly when
    the start is not after the end, and is zero or negative otherwise. *)
Theorem expected_rows_dates self :
  (_start self = None \/ _end self = None ->
   expected_rows self = inl TypeError) /\
  (forall start end_ : Z,
      _start self = Some start -> _end self = Some end_ ->
      exists n : Z,
        expected_rows self = inr n /\
        86400 * (n - 1) <= end_ - start < 86400 * n /\
        (1 <= n <-> start <= end_)).
Proof.
  split.
  - unfold expected_rows. intros [-> | ->]; [|done].
    by destruct (_end self).
  - intros start end_ Hs He. unfold expected_rows. rewrite Hs, He.
    eexists. split; [done|].
    pose proof (Z.div_mod (end_ - start) 86400 ltac:(lia)) as Hdm.
    pose proof (Z.mod_pos_bound (end_ - start) 86400 ltac:(lia)) as Hmod.
    split; [lia|]. split.
    + intros Hn. assert (0 <= (end_ - start) / 86400) as H0 by lia. lia.
    + intros Hse. pose proof (Z.div_pos (end_ - start) 86400). lia.
Qed.

(** X7. For a period given by two days, and a table that has a row on the
    first and on the last day of the period and none outside of it, the
    resolved series has exactly as many rows as [expected_rows] says: the
    resolution fills every gap of the period. *)
Theorem resolved_series_expected_rows self method stations alt adapt_temp
    (start end_ : Z) :
  _stations self <> [] -> size (_data self) <> 0%nat ->
  _start self = Some start -> _end self = Some end_ ->
  bucket start = start -> bucket end_ = end_ ->
  (exists r, r ∈ rows (_data self) /\ bucket (time r) = start) ->
  (exists r, r ∈ rows (_data self) /\ bucket (time r) = end_) ->
  (forall r, r ∈ rows (_data self) -> start <= time r <= end_) ->
  exists self',
    _resolve_point weighted_average self method stations alt adapt_temp
    = inr self' /\
    expected_rows self' = inr (Z.of_nat (length (rows (_data self')))).
Proof.
  intros Hst Hsz Hs He Hsa Hea (rs & Hrs & Hbs) (re & Hre & Hbe) Hin.
  destruct (resolved_times weighted_average self method stations alt
              adapt_temp Hst Hsz)
    as (self' & Hres & Hself & _ & Htimes & _).
  destruct (bins_range time (rows (_data self)) (size_rows _ Hsz))
    as (lo & hi & (xl & Hxl & Hlo) & (xh & Hxh & Hhi) & Hbd & Hbins).
  assert (lo = start) as ->.
  { apply Z.le_antisymm.
    - rewrite <- Hbs. apply Hbd, Hrs.
    - rewrite <- Hlo, <- Hsa. apply bucket_mono, Hin, Hxl. }
  assert (hi = end_) as ->.
  { apply Z.le_antisymm.
    - rewrite <- Hhi, <- Hea. apply bucket_mono, Hin, Hxh.
    - rewrite <- Hbe. apply Hbd, Hre. }
  exists self'. split; [done|].
  assert (length (rows (_data self')) =
          S (Z.to_nat ((end_ - start) / 86400))) as ->.
  { rewrite <- (length_map time), Htimes, Hbins.
    by rewrite length_map, length_seq. }
  rewrite Hself. unfold expected_rows. cbn [with_data _start _end].
  rewrite Hs, He. f_equal.
  assert (start <= end_) by (specialize (Hin rs Hrs); lia).
  pose proof (Z.div_pos (end_ - start) 86400). lia.
Qed.
End RowsFacts.

(** ** More on loading *)

Section LoaderMore.
Context {F : Type} {Granularity : Type} (DAILY : Granularity).
Context (generate_endpoint_path : Granularity -> string -> bool -> string).
Context (get_local_file_path : string -> string -> string -> string).
Context (file_in_cache : string -> Z -> bool).
Context (read_pickle : string -> exn + DataFrame F).
Context (load_handler :
           string -> string -> list string -> list (string * string) ->
           list (string * list nat) -> exn + DataFrame F).
Context (validate_series : DataFrame F -> string -> exn + DataFrame F).
Implicit Types (self : Daily F) (station : string) (df : DataFrame F).

Local Abbreviation path :=
  (cache_path DAILY generate_endpoint_path get_local_file_path).
Local Abbreviation file :=
  (fun self station => generate_endpoint_path DAILY station (_model self)).
Local Abbreviation load_table' :=
  (load_table DAILY generate_endpoint_path get_local_file_path
              file_in_cache read_pickle load_handler validate_series).
Local Abbreviation _load' :=
  (_load DAILY generate_endpoint_path get_local_file_path file_in_cache
         read_pickle load_handler validate_series).
Local Abbreviation fetched :=
  (fun self station =>
     load_handler (endpoint self) (file self station) _columns _types
                  _parse_dates).

(** Whether the load of a station is served from the cache. *)
Local Abbreviation hit :=
  (fun self station =>
     (0 <? max_age self) && file_in_cache (path self station) (max_age self)).

(** The events of the load up to the answer of the endpoint, when the
    cache does not serve it. *)
Lemma load_table_miss self station :
  hit self station = false ->
  load_table' self station =
  bind (if 0 <? max_age self
        then ([CacheLookup (path self station) (max_age self)], inr false)
        else ret false)
       (fun _ =>
          bind (call (RemoteFetch (endpoint self) (file self station))
                     (fetched self station))
               (fun raw =>
                  bind (call (Validate station) (validate_series raw station))
                       (fun df =>
                          bind (if 0 <? max_age self
                                then call (WritePickle (path self station) df)
                                          (inr tt)
                                else ret tt)
                               (fun _ => ret df)))).
Proof.
  intros Hhit. unfold load_table, cache_path in *.
  destruct (0 <? max_age self); simpl in *; [|done].
  by rewrite Hhit.
Qed.

(** X8. A load that the cache does not serve, with caching on: the cache
    is looked up, the table is fetched, validated, and the validated table
    is written to the cache, in this order; the result is the validated
    table, filtered by the period. *)
Theorem load_cache_miss self station (raw df : DataFrame F) :
  0 < max_age self ->
  file_in_cache (path self station) (max_age self) = false ->
  fetched self station = inr raw ->
  validate_series raw station = inr df ->
  _load DAILY generate_endpoint_path get_local_file_path file_in_cache
        read_pickle load_handler validate_series self station =
  ([CacheLookup (path self station) (max_age self);
    RemoteFetch (endpoint self) (file self station);
    Validate station;
    WritePickle (path self station) df],
   inr (filter_period self df)).
Proof.
  intros Hage%Z.ltb_lt Hmiss Hraw Hdf.
  rewrite (load_eq DAILY), load_table_miss by (by rewrite Hage, Hmiss).
  rewrite Hage. unfold call, bind, ret, trace, result. simpl.
  rewrite Hraw. simpl. rewrite Hdf. by simpl.
Qed.

(** X9. Only a validated table is ever written to the cache, under the
    cache path of the station and with caching on: whatever the load
    writes is what the validation returned for what the endpoint
    served. *)
Theorem load_writes_validated self station (p : string) (df : DataFrame F) :
  WritePickle p df ∈
    trace (_load DAILY generate_endpoint_path get_local_file_path
                 file_in_cache read_pickle load_handler validate_series
                 self station) ->
  0 < max_age self /\ p = path self station /\
  exists raw, fetched self station = inr raw /\
              validate_series raw station = inr df.
Proof.
  rewrite (load_eq DAILY). unfold trace at 1. simpl.
  destruct (hit self station) eqn:Hhit.
  - apply andb_true_iff in Hhit as [Hage%Z.ltb_lt Hin].
    rewrite (load_table_hit DAILY _ _ _ _ _ _ _ _ Hage Hin).
    unfold trace. simpl. intros Hw.
    repeat (apply elem_of_cons in Hw as [Hw|Hw]; [done|]).
    by apply elem_of_nil in Hw.
  - rewrite load_table_miss by done.
    unfold call, bind, ret, trace. simpl.
    destruct (0 <? max_age self) eqn:Hage; simpl;
      destruct (fetched self station) as [e|raw] eqn:Hraw; simpl;
      try destruct (validate_series raw station) as [e|df'] eqn:Hdf; simpl;
      intros Hw;
      repeat (apply elem_of_cons in Hw as [Hw|Hw]; [simplify_eq|]);
      try (by apply elem_of_nil in Hw).
    apply Z.ltb_lt in Hage. split; [done|]. split; [done|]. eauto.
Qed.

(** X10. When the endpoint fails, the load fails with the same exception
    right after the fetch: nothing is validated, nothing is written. *)
Theorem load_fetch_failure self station (e : exn) :
  hit self station = false ->
  fetched self station = inl e ->
  result (_load DAILY generate_endpoint_path get_local_file_path
                file_in_cache read_pickle load_handler validate_series
                self station) = inl e /\
  trace (_load DAILY generate_endpoint_path get_local_file_path
               file_in_cache read_pickle load_handler validate_series
               self station) =
    ((if 0 <? max_age self
      then [CacheLookup (path self station) (max_age self)] else []) ++
     [RemoteFetch (endpoint self) (file self station)])%list.
Proof.
  intros Hhit Hraw. rewrite (load_eq DAILY), load_table_miss by done.
  unfold call, bind, ret, trace, result. simpl.
  destruct (0 <? max_age self); simpl; rewrite Hraw; by simpl.
Qed.

(** X11. When the validation rejects the fetched table, the load fails
    with the exception of the validation and the table is not cached. *)
Theorem load_validation_failure self station (raw : DataFrame F) (e : exn) :
  hit self station = false ->
  fetched self station = inr raw ->
  validate_series raw station = inl e ->
  result (_load DAILY generate_endpoint_path get_local_file_path
                file_in_cache read_pickle load_handler validate_series
                self station) = inl e /\
  trace (_load DAILY generate_endpoint_path get_local_file_path
               file_in_cache read_pickle load_handler validate_series
               self station) =
    ((if 0 <? max_age self
      then [CacheLookup (path self station) (max_age self)] else []) ++
     [RemoteFetch (endpoint self) (file self station);
      Validate station])%list.
Proof.
  intros Hhit Hraw Hval. rewrite (load_eq DAILY), load_table_miss by done.
  unfold call, bind, ret, trace, result. simpl.
  destruct (0 <? max_age self); simpl; rewrite Hraw; simpl;
    rewrite Hval; by simpl.
Qed.

(** X12. With caching off ([max_age] not positive) the load does not touch
    the cache: it neither looks it up, nor reads it, nor writes it; it
    fetches, and validates what it fetched. *)
Theorem load_without_cache self station :
  max_age self <= 0 ->
  trace (_load DAILY generate_endpoint_path get_local_file_path
               file_in_cache read_pickle load_handler validate_series
               self station) =
    RemoteFetch (endpoint self) (file self station) ::
    match fetched self station with
    | inr _ => [Validate station]
    | inl _ => []
    end /\
  result (_load DAILY generate_endpoint_path get_local_file_path
                file_in_cache read_pickle load_handler validate_series
                self station) =
    match fetched self station with
    | inr raw => on_result (filter_period self) (validate_series raw station)
    | inl e => inl e
    end.
Proof.
  intros Hage. assert ((0 <? max_age self) = false) as Hoff by lia.
  rewrite (load_eq DAILY), load_table_miss by (by rewrite Hoff).
  rewrite Hoff. unfold call, bind, ret, trace, result. simpl.
  destruct (fetched self station) as [e|raw]; simpl; [done|].
  by destruct (validate_series raw station).
Qed.

(** What the load does to the cache and to the endpoint does not
    depend on the period asked for: the table is cached whole, and the
    period only filters the result. *)
Theorem load_trace_any_period self station (start end_ : option Z) :
  trace (_load DAILY generate_endpoint_path get_local_file_path
               file_in_cache read_pickle load_handler validate_series
               (with_period self start end_) station) =
  trace (_load DAILY generate_endpoint_path get_local_file_path
               file_in_cache read_pickle load_handler validate_series
               self station) /\
  result (_load DAILY generate_endpoint_path get_local_file_path
                file_in_cache read_pickle load_handler validate_series
                (with_period self start end_) station) =
  on_result (filter_period (with_period self start end_))
            (result (load_table DAILY generate_endpoint_path
                                get_local_file_path file_in_cache
                                read_pickle load_handler validate_series
                                self station)).
Proof. by rewrite !(load_eq DAILY). Qed.

Lemma loc_between_twice (a b c d : Z) df :
  loc_between a b (loc_between c d df) =
  loc_between (Z.max a c) (Z.min b d) df.
Proof.
  unfold loc_between. simpl. f_equal.
  rewrite list_filter_filter. apply list_filter_iff. intros r. lia.
Qed.

Lemma loc_between_same (a b : Z) df :
  loc_between a b (loc_between a b df) = loc_between a b df.
Proof.
  rewrite loc_between_twice. unfold loc_between. f_equal.
  apply list_filter_iff. intros r. lia.
Qed.

(** X13. Filtering by two periods, one after the other, is filtering by
    their intersection; so filtering twice by the same period is filtering
    once. *)
Theorem loc_between_compose (s1 e1 s2 e2 : Z) df :
  loc_between s1 e1 (loc_between s2 e2 df) =
    loc_between (Z.max s1 s2) (Z.min e1 e2) df /\
  loc_between s1 e1 (loc_between s1 e1 df) = loc_between s1 e1 df.
Proof. split; [apply loc_between_twice | apply loc_between_same]. Qed.

(** X14. A period whose end is before its start is no error: the load
    filters every row out and keeps the columns.  And the filter of an
    object applied twice is the filter applied once. *)
Theorem filter_period_edges self df :
  (forall start end_ : Z,
      end_ < start ->
      rows (loc_between start end_ df) = [] /\
      columns (loc_between start end_ df) = columns df) /\
  filter_period self (filter_period self df) = filter_period self df.
Proof.
  split.
  - intros start end_ Hlt. split; [|done]. unfold loc_between. simpl.
    induction (rows df) as [|r l IH]; [done|].
    rewrite filter_cons. case_decide; [lia|done].
  - unfold filter_period.
    destruct (_start self) as [s|], (_end self) as [e|]; simpl; try done.
    apply loc_between_same.
Qed.
End LoaderMore.

(** ** Construction *)

Section InitFacts.
Context {F : Type} `{Flt : Float F}.
Context (weighted_average : @joined F (meta F) -> cells F * meta F).
Context {Granularity : Type} (DAILY : Granularity).
Context (generate_endpoint_path : Granularity -> string -> bool -> string).
Context (get_local_file_path : string -> string -> string -> string).
Context (file_in_cache : string -> Z -> bool).
Context (read_pickle : string -> exn + DataFrame F).
Context (load_handler :
           string -> string -> list string -> list (string * string) ->
           list (string * list nat) -> exn + DataFrame F).
Context (validate_series : DataFrame F -> string -> exn + DataFrame F).
Context (processing_handler :
           list (list string) -> (string -> M F (DataFrame F)) -> Z -> Z ->
           M F (option (DataFrame F))).
Implicit Types (cls self : Daily F) (loc : location F) (model : bool).

Local Abbreviation init :=
  (__init__ weighted_average DAILY generate_endpoint_path
            get_local_file_path file_in_cache read_pickle load_handler
            validate_series processing_handler).
Local Abbreviation get_data :=
  (_get_data DAILY generate_endpoint_path get_local_file_path file_in_cache
             read_pickle load_handler validate_series processing_handler).

(** The station ids that [__init__] reads off [loc]. *)
Local Abbreviation ids_of :=
  (fun loc start end_ model =>
     match loc with
     | LocFrame index => index
     | LocPoint p => (Point.get_stations p "daily" start end_ model).1
     | LocList ids => ids
     | LocOther id => [id]
     end).

Local Abbreviation searched :=
  (fun loc start end_ model =>
     match loc with
     | LocPoint _ => [NearbyStations (F:=F) "daily" start end_ model]
     | _ => []
     end).

Local Abbreviation cleared :=
  (fun cls =>
     if (0 <? max_age cls) && autoclean cls then [ClearCache (F:=F)]
     else []).

Lemma get_data_empty self :
  _stations self = [] ->
  get_data self = ret (Some (DataFrame_of_columns (map fst _types))).
Proof. intros Hst. unfold _get_data. by rewrite Hst. Qed.

(** X15. Constructed without any station (an empty list, an empty stations
    table, or a point that has no station nearby), the object has no
    station id and the empty table of the ten columns: nothing is loaded,
    and for a point nothing is resolved (the station ids stay empty, the
    placeholder id is not set).  The cache is still cleared if the class
    clears it. *)
Theorem init_without_stations cls loc (start end_ : option Z) model :
  ids_of loc start end_ model = [] ->
  exists self,
    __init__ weighted_average DAILY generate_endpoint_path
             get_local_file_path file_in_cache read_pickle load_handler
             validate_series processing_handler cls loc start end_ model =
      ((searched loc start end_ model ++ cleared cls)%list,
       inr (Built self)) /\
    _stations self = [] /\
    rows (_data self) = [] /\
    map fst (columns (_data self)) =
      ["tavg"; "tmin"; "tmax"; "prcp"; "snow"; "wdir"; "wspd"; "wpgt";
       "pres"; "tsun"] /\
    _start self = start /\ _end self = end_ /\ _model self = model.
Proof.
  intros Hids. unfold __init__.
  destruct loc as [index|p|ids|id]; simpl in Hids; try discriminate;
    try subst; rewrite ?Hids, get_data_empty by done; simpl;
    eexists; (split; [reflexivity|]); done.
Qed.

Lemma ClearCache_not_acquired (t : list (event F)) loc (start end_ : option Z) model :
  ClearCache ∉ (searched loc start end_ model ++ map Acquire t)%list.
Proof.
  rewrite elem_of_app, map_fmap, list_elem_of_fmap.
  intros [Hs | (e & He & _)]; [|done].
  destruct loc; simpl in Hs;
    repeat (apply elem_of_cons in Hs as [Hs|Hs]; [done|]);
    by apply elem_of_nil in Hs.
Qed.

(** X16. [__init__] clears the cache exactly when it has built the object
    without an exception and the class has a positive [max_age] and
    [autoclean] set; then clearing is the last thing it does. *)
Theorem init_clear_cache cls loc (start end_ : option Z) model :
  (ClearCache ∈
     (__init__ weighted_average DAILY generate_endpoint_path
               get_local_file_path file_in_cache read_pickle load_handler
               validate_series processing_handler cls loc start end_
               model).1 <->
   (exists b,
       (__init__ weighted_average DAILY generate_endpoint_path
                 get_local_file_path file_in_cache read_pickle load_handler
                 validate_series processing_handler cls loc start end_
                 model).2 = inr b) /\
   0 < max_age cls /\ autoclean cls = true) /\
  (ClearCache ∈
     (__init__ weighted_average DAILY generate_endpoint_path
               get_local_file_path file_in_cache read_pickle load_handler
               validate_series processing_handler cls loc start end_
               model).1 ->
   last (__init__ weighted_average DAILY generate_endpoint_path
                  get_local_file_path file_in_cache read_pickle load_handler
                  validate_series processing_handler cls loc start end_
                  model).1 = Some ClearCache).
Proof.
  unfold __init__.
  set (ids := ids_of loc start end_ model).
  set (acquired := get_data (fresh cls _ start end_ model)).
  pose proof (ClearCache_not_acquired (trace acquired) loc start end_ model)
    as Hno.
  destruct (result acquired) as [e|d]; cbn [fst snd].
  { split; [|done]. split; [done|]. by intros [[b ?] _]. }
  match goal with
  | |- context [match ?i with inl e => _ | inr b => _ end] =>
      destruct i as [e|b]
  end; cbn [fst snd].
  { split; [|done]. split; [done|]. by intros [[b ?] _]. }
  destruct (Z.ltb_spec 0 (max_age cls)) as [Hage|Hage]; simpl.
  - destruct (autoclean cls); simpl.
    + split.
      * split; [eauto|]. intros _. apply elem_of_app. right. by left.
      * intros _. by rewrite last_snoc.
    + rewrite app_nil_r. split; [|done]. split; [done|]. by intros (_ & _ & ?).
  - rewrite app_nil_r. split; [|done]. split; [done|]. intros (_ & ? & _). lia.
Qed.

(** X17. For a location that is not a point (a stations table, a list of
    ids, one id) nothing is resolved: the object keeps the station ids as
    given, with the period and the model flag, and its table is the one
    that the acquisition returned.  One id is the list of that id. *)
Theorem init_stations_kept cls loc (start end_ : option Z) model (b : built F) :
  (forall p, loc <> LocPoint p) ->
  (__init__ weighted_average DAILY generate_endpoint_path
            get_local_file_path file_in_cache read_pickle load_handler
            validate_series processing_handler cls loc start end_ model).2
  = inr b ->
  (exists d,
      result (_get_data DAILY generate_endpoint_path get_local_file_path
                        file_in_cache read_pickle load_handler
                        validate_series processing_handler
                        (fresh cls (ids_of loc start end_ model) start end_
                               model)) = inr d /\
      b = match d with
          | Some df =>
              Built (with_data (fresh cls (ids_of loc start end_ model)
                                      start end_ model)
                               df (ids_of loc start end_ model))
          | None =>
              BuiltNoData (fresh cls (ids_of loc start end_ model) start
                                 end_ model)
          end) /\
  (forall id,
      loc = LocOther id ->
      __init__ weighted_average DAILY generate_endpoint_path
               get_local_file_path file_in_cache read_pickle load_handler
               validate_series processing_handler cls loc start end_ model =
      __init__ weighted_average DAILY generate_endpoint_path
               get_local_file_path file_in_cache read_pickle load_handler
               validate_series processing_handler cls (LocList [id]) start
               end_ model).
Proof.
  intros Hnp Hb. split; [|by intros id ->].
  unfold __init__ in Hb.
  destruct loc as [index|p|ids|id]; [|by destruct (Hnp p)|..];
    cbn [fst snd] in *;
    match type of Hb with
    | context [result ?a] => destruct (result a) as [e|d] eqn:Hd
    end; simpl in Hb; try discriminate;
    exists d; (split; [done|]); destruct d; simpl in Hb; congruence.
Qed.

(** X18. For a point with stations nearby and a table that is not empty,
    [__init__] leaves the object that [_resolve_point] makes of the
    acquired table: its only station id is the placeholder [XXXXX]. *)
Theorem init_point_resolved cls (p : Point.t F) (start end_ : option Z) model
    (df : DataFrame F) :
  (Point.get_stations p "daily" start end_ model).1 <> [] ->
  size df <> 0%nat ->
  result (_get_data DAILY generate_endpoint_path get_local_file_path
                    file_in_cache read_pickle load_handler validate_series
                    processing_handler
                    (fresh cls (Point.get_stations p "daily" start end_
                                                   model).1
                           start end_ model)) = inr (Some df) ->
  exists self',
    (__init__ weighted_average DAILY generate_endpoint_path
              get_local_file_path file_in_cache read_pickle load_handler
              validate_series processing_handler cls (LocPoint p) start end_
              model).2 = inr (Built self') /\
    _resolve_point weighted_average
      (with_data (fresh cls (Point.get_stations p "daily" start end_
                                                model).1
                        start end_ model)
                 df (Point.get_stations p "daily" start end_ model).1)
      (Point.method p) (Point.get_stations p "daily" start end_ model).2
      (Point.alt p) (Point.adapt_temp p) = inr self' /\
    _stations self' = ["XXXXX"] /\
    _start self' = start /\ _end self' = end_.
Proof.
  intros Hids Hsz Hd. unfold __init__. cbn [fst snd]. rewrite Hd.
  rewrite resolve_point_resolved by done.
  simpl. eexists. split; [|done].
  by destruct ((0 <? max_age cls) && autoclean cls).
Qed.
End InitFacts.

(** ** Instances *)

Lemma resolved_series_days_example :
  _stations Sample2.gappy <> [] /\
  size (_data Sample2.gappy) <> 0%nat /\
  exists (self' : Daily Q) (lo hi : Z),
    _resolve_point weighted_average_spec Sample2.gappy "weighted"
                   Sample.stations 100 true = inr self' /\
    _stations self' = ["XXXXX"] /\
    map time (rows (_data self')) =
      map (fun i => lo + 86400 * Z.of_nat i)
          (seq 0 (S (Z.to_nat ((hi - lo) / 86400)))).
Proof.
  assert (_stations Sample2.gappy <> []) as H1 by discriminate.
  assert (size (_data Sample2.gappy) <> 0%nat) as H2 by discriminate.
  split; [exact H1|]. split; [exact H2|].
  destruct (resolved_series_days weighted_average_spec Sample2.gappy
              "weighted" Sample.stations 100 true H1 H2)
    as (s & lo & hi & Hs & Hx & _ & _ & _ & _ & _ & Ht).
  exists s, lo, hi. split; [exact Hs|]. split; [exact Hx | exact Ht].
Defined.

Lemma resolved_series_covers_example :
  _stations Sample2.gappy <> [] /\
  size (_data Sample2.gappy) <> 0%nat /\
  exists self',
    _resolve_point weighted_average_spec Sample2.gappy "nearest"
                   Sample.stations 100 true = inr self' /\
    NoDup (map (fun r => (station r, time r)) (rows (_data self'))).
Proof.
  assert (_stations Sample2.gappy <> []) as H1 by discriminate.
  assert (size (_data Sample2.gappy) <> 0%nat) as H2 by discriminate.
  split; [exact H1|]. split; [exact H2|].
  destruct (resolved_series_covers weighted_average_spec Sample2.gappy
              "nearest" Sample.stations 100 true H1 H2)
    as (s & Hs & Hn & _).
  exists s. split; [exact Hs | exact Hn].
Defined.


Lemma resolve_point_other_methods_example :
  "weighted" <> "nearest" /\ "Nearest" <> "nearest" /\
  _resolve_point weighted_average_spec Sample.two_stations "weighted"
                 Sample.stations 100 true =
  _resolve_point weighted_average_spec Sample.two_stations "Nearest"
                 Sample.stations 100 true.
Proof.
  assert ("weighted" <> "nearest") as H1 by discriminate.
  assert ("Nearest" <> "nearest") as H2 by discriminate.
  split; [exact H1|]. split; [exact H2|].
  exact (resolve_point_other_methods weighted_average_spec
           Sample.two_stations Sample.stations 100 true "weighted" "Nearest"
           H1 H2).
Defined.

Lemma adapt_temp_without_elevation_example :
  rows (_data Sample.two_stations) !! 1%nat = Some Sample.far_row /\
  Sample.stations_partial !! station Sample.far_row = None /\
  exists r',
    nearest_data Sample.two_stations Sample.stations_partial 100 true
      !! 1%nat = Some r' /\
    get tavg (data r') = None /\
    get wdir (data r') = vround (get wdir (data Sample.far_row)).
Proof.
  assert (rows (_data Sample.two_stations) !! 1%nat = Some Sample.far_row)
    as H1 by reflexivity.
  assert (Sample.stations_partial !! station Sample.far_row = None) as H2
    by reflexivity.
  split; [exact H1|]. split; [exact H2|].
  destruct (adapt_temp_without_elevation Sample.two_stations
              Sample.stations_partial 100 1 Sample.far_row H1 (or_introl H2))
    as (_ & r' & Hr' & Hc).
  exists r'. split; [exact Hr'|]. split; [exact (Hc tavg) | exact (Hc wdir)].
Defined.

Lemma expected_rows_dates_example :
  _start Sample2.series = Some 0 /\ _end Sample2.series = Some 172800 /\
  exists n, expected_rows Sample2.series = inr n /\ (1 <= n <-> 0 <= 172800).
Proof.
  split; [reflexivity|]. split; [reflexivity|].
  destruct (proj2 (expected_rows_dates Sample2.series) 0 172800
              eq_refl eq_refl) as (n & Hn & _ & Hiff).
  exists n. split; [exact Hn | exact Hiff].
Defined.

Lemma resolved_series_expected_rows_example :
  _start Sample2.gappy = Some 0 /\ _end Sample2.gappy = Some 172800 /\
  bucket 0 = 0 /\ bucket 172800 = 172800 /\
  exists self',
    _resolve_point weighted_average_spec Sample2.gappy "nearest"
                   Sample.stations 100 false = inr self' /\
    expected_rows self' = inr (Z.of_nat (length (rows (_data self')))).
Proof.
  split; [reflexivity|]. split; [reflexivity|].
  split; [reflexivity|]. split; [reflexivity|].
  apply (resolved_series_expected_rows weighted_average_spec Sample2.gappy
           "nearest" Sample.stations 100 false 0 172800).
  - discriminate.
  - discriminate.
  - reflexivity.
  - reflexivity.
  - reflexivity.
  - reflexivity.
  - eexists. split; [left|reflexivity].
  - eexists. split; [right; left|reflexivity].
  - intros r Hr.
    repeat (apply elem_of_cons in Hr as [->|Hr]; [simpl; lia|]).
    by apply elem_of_nil in Hr.
Defined.

Lemma load_cache_miss_example :
  0 < max_age Sample.two_days /\
  Sample2.load Sample2.cold_cache Sample.load_handler Sample.validate_series
               Sample.two_days "10637" =
  ([CacheLookup (Sample.path Sample.two_days "10637") 86400;
    RemoteFetch (endpoint Sample.two_days)
                (Sample.generate_endpoint_path tt "10637" true);
    Validate "10637";
    WritePickle (Sample.path Sample.two_days "10637") Sample.three_days],
   inr (filter_period Sample.two_days Sample.three_days)).
Proof.
  assert (0 < max_age Sample.two_days) as H1 by reflexivity.
  split; [exact H1|].
  exact (load_cache_miss tt Sample.generate_endpoint_path
           Sample.get_local_file_path Sample2.cold_cache Sample.read_pickle
           Sample.load_handler Sample.validate_series Sample.two_days
           "10637" Sample.three_days Sample.three_days H1 eq_refl eq_refl
           eq_refl).
Defined.

Lemma load_writes_validated_example :
  WritePickle (Sample.path Sample.two_days "10637") Sample.three_days ∈
    trace (Sample2.load Sample2.cold_cache Sample.load_handler
                        Sample.validate_series Sample.two_days "10637") /\
  exists raw,
    Sample.load_handler (endpoint Sample.two_days)
      (Sample.generate_endpoint_path tt "10637" true) _columns _types
      _parse_dates = inr raw /\
    Sample.validate_series raw "10637" = inr Sample.three_days.
Proof.
  assert (WritePickle (Sample.path Sample.two_days "10637")
                      Sample.three_days ∈
          trace (Sample2.load Sample2.cold_cache Sample.load_handler
                              Sample.validate_series Sample.two_days
                              "10637")) as H1.
  { vm_compute. do 3 right. left. }
  split; [exact H1|].
  exact (proj2 (proj2 (load_writes_validated tt Sample.generate_endpoint_path
                         Sample.get_local_file_path Sample2.cold_cache
                         Sample.read_pickle Sample.load_handler
                         Sample.validate_series Sample.two_days "10637"
                         _ _ H1))).
Defined.

Lemma load_fetch_failure_example :
  result (Sample2.load Sample2.cold_cache Sample2.dead_endpoint
                       Sample.validate_series Sample.two_days "10637")
  = inl (Exn "HTTPError").
Proof.
  exact (proj1 (load_fetch_failure tt Sample.generate_endpoint_path
                  Sample.get_local_file_path Sample2.cold_cache
                  Sample.read_pickle Sample2.dead_endpoint
                  Sample.validate_series Sample.two_days "10637"
                  (Exn "HTTPError") eq_refl eq_refl)).
Defined.

Lemma load_validation_failure_example :
  trace (Sample2.load Sample2.cold_cache Sample.load_handler Sample2.reject
                      Sample.two_days "10637") =
    [CacheLookup (Sample.path Sample.two_days "10637") 86400;
     RemoteFetch (endpoint Sample.two_days)
                 (Sample.generate_endpoint_path tt "10637" true);
     Validate "10637"].
Proof.
  exact (proj2 (load_validation_failure tt Sample.generate_endpoint_path
                  Sample.get_local_file_path Sample2.cold_cache
                  Sample.read_pickle Sample.load_handler Sample2.reject
                  Sample.two_days "10637" Sample.three_days
                  (Exn "ValueError") eq_refl eq_refl eq_refl)).
Defined.

Lemma load_without_cache_example :
  max_age Sample2.uncached <= 0 /\
  trace (Sample.load Sample2.uncached "10637") =
    [RemoteFetch (endpoint Sample2.uncached)
                 (Sample.generate_endpoint_path tt "10637" true);
     Validate "10637"].
Proof.
  assert (max_age Sample2.uncached <= 0) as H1 by (simpl; lia).
  split; [exact H1|].
  exact (proj1 (load_without_cache tt Sample.generate_endpoint_path
                  Sample.get_local_file_path Sample.file_in_cache
                  Sample.read_pickle Sample.load_handler
                  Sample.validate_series Sample2.uncached "10637" H1)).
Defined.

Lemma init_without_stations_example :
  exists self,
    Sample2.init (LocPoint Sample2.nowhere) None None =
      ([NearbyStations "daily" None None true; ClearCache],
       inr (Built self)) /\
    _stations self = [] /\ rows (_data self) = [].
Proof.
  destruct (init_without_stations weighted_average_spec tt
              Sample.generate_endpoint_path Sample.get_local_file_path
              Sample.file_in_cache Sample.read_pickle Sample.load_handler
              Sample.validate_series Sample2.pool Sample2.cls
              (LocPoint Sample2.nowhere) None None true eq_refl)
    as (self & Hrun & Hst & Hrows & _).
  exists self. split; [exact Hrun|]. split; [exact Hst | exact Hrows].
Defined.

Lemma init_stations_kept_example :
  exists self,
    (Sample2.init (LocOther "10637") None None).2 = inr (Built self) /\
    _stations self = ["10637"] /\
    Sample2.init (LocOther "10637") None None =
    Sample2.init (LocList ["10637"]) None None.
Proof.
  assert (forall p : Point.t Q, LocOther "10637" <> LocPoint p) as H1
    by discriminate.
  eexists. split; [vm_compute; reflexivity|]. split; [reflexivity|].
  refine (proj2 (init_stations_kept weighted_average_spec tt
                   Sample.generate_endpoint_path Sample.get_local_file_path
                   Sample.file_in_cache Sample.read_pickle
                   Sample.load_handler Sample.validate_series Sample2.pool
                   Sample2.cls (LocOther "10637") None None true _ H1 _)
                "10637" eq_refl).
  vm_compute. reflexivity.
Defined.

Lemma init_point_resolved_example :
  (Point.get_stations Sample2.point "daily" None None true).1 <> [] /\
  size Sample2.stacked <> 0%nat /\
  exists self',
    (Sample2.init (LocPoint Sample2.point) None None).2 = inr (Built self') /\
    _stations self' = ["XXXXX"].
Proof.
  assert ((Point.get_stations Sample2.point "daily" None None true).1 <> [])
    as H1 by discriminate.
  assert (size Sample2.stacked <> 0%nat) as H2 by discriminate.
  split; [exact H1|]. split; [exact H2|].
  destruct (init_point_resolved weighted_average_spec tt
              Sample.generate_endpoint_path Sample.get_local_file_path
              Sample.file_in_cache Sample.read_pickle Sample.load_handler
              Sample.validate_series Sample2.pool Sample2.cls Sample2.point
              None None true Sample2.stacked H1 H2)
    as (s & Hs & _ & Hx & _).
  { vm_compute. reflexivity. }
  exists s. split; [exact Hs | exact Hx].
Defined.

Lemma filter_period_edges_example :
  0 < 172800 /\
  rows (loc_between 172800 0 Sample.three_days) = [] /\
  columns (loc_between 172800 0 Sample.three_days) = _types.
Proof.
  assert (0 < 172800) as H1 by lia.
  split; [exact H1|].
  exact (proj1 (filter_period_edges Sample2.series Sample.three_days)
               172800 0 H1).
Defined.
